(** * Resource Management backend (backend_code.py): a shallow embedding

    The service layer of the FastAPI backend ([AccountService],
    [DemandService], [DashboardService]) over an SQLite store.

    Modelling choices:
    - a table is the list of its rows in rowid order; the SQLite engine's
      checks that the service relies on (primary key of [accounts], UNIQUE
      [demands.id]) are performed at commit and raise [IntegrityError];
    - a service call either commits (it returns [inr (result, store')]) or
      raises before/at commit ([inl exn]); a raised call leaves the store as
      it was, because the session is closed without a commit;
    - each [datetime.datetime.now()] reading of the source is an explicit
      argument of type [datetime];
    - strings are byte strings (one character per byte);
    - a nullable column holding a Python [None] is [None]. *)

From Stdlib Require Import ZArith Ascii String List Sorted Lia.
From stdpp Require Import base list strings pretty.
Import ListNotations.
Open Scope string_scope.

(* ------------------------------------------------------------------ *)
(** ** Python values: dates, clock readings, [strftime] and [strptime] *)

Record date := mkDate { year : Z; month : Z; day : Z }.

(** A [datetime.datetime] value, as read from the clock. *)
Record datetime := mkDatetime {
  dt_date : date;  (** [.date()] *)
  hour : Z; minute : Z; second : Z }.

(** Decimal rendering, zero-padded to width [w]. *)
Definition pad (w : nat) (s : string) : string :=
  String.append (String.concat "" (repeat "0" (w - String.length s))) s.

Definition fmt_num (w : nat) (z : Z) : string := pad w (pretty (Z.to_N z)).

(** [dt.strftime('%Y%m%d%H%M%S')] *)
Definition strftime_ts (t : datetime) : string :=
  String.concat "" [fmt_num 4 (year (dt_date t)); fmt_num 2 (month (dt_date t));
                    fmt_num 2 (day (dt_date t)); fmt_num 2 (hour t);
                    fmt_num 2 (minute t); fmt_num 2 (second t)].

Definition is_digit (c : ascii) : bool :=
  (48 <=? nat_of_ascii c)%nat && (nat_of_ascii c <=? 57)%nat.

Definition digit_val (c : ascii) : Z := Z.of_nat (nat_of_ascii c - 48).

Definition in_range (c lo hi : ascii) : bool :=
  (nat_of_ascii lo <=? nat_of_ascii c)%nat && (nat_of_ascii c <=? nat_of_ascii hi)%nat.

Definition orelse {A} (o1 o2 : option A) : option A :=
  match o1 with Some _ => o1 | None => o2 end.

(** [_strptime] compiles ["%Y-%m-%d"] to the regular expression
    [(?P<Y>\d\d\d\d)-(?P<m>1[0-2]|0[1-9]|[1-9])-(?P<d>3[01]|[12]\d|0[1-9]|[1-9]| [1-9])]
    matched with [re.match] at the start of the string; the alternatives
    of a group are tried in order. *)
Definition re_Y (s : string) : option (Z * string) :=
  match s with
  | String a (String b (String c (String d r))) =>
      if is_digit a && is_digit b && is_digit c && is_digit d
      then Some ((1000 * digit_val a + 100 * digit_val b + 10 * digit_val c + digit_val d)%Z, r)
      else None
  | _ => None
  end.

(** Two-character alternative [x[lo-hi]] and one-character alternative [[lo-hi]]. *)
Definition re_two (x lo hi : ascii) (s : string) : option (Z * string) :=
  match s with
  | String a (String b r) =>
      if Ascii.eqb a x && in_range b lo hi
      then Some ((10 * digit_val a + digit_val b)%Z, r) else None
  | _ => None
  end.

Definition re_one (lo hi : ascii) (s : string) : option (Z * string) :=
  match s with
  | String a r => if in_range a lo hi then Some (digit_val a, r) else None
  | _ => None
  end.

(** An alternative of the month group must be followed by ['-'];
    otherwise the regex engine backtracks into the next alternative. *)
Definition then_dash (o : option (Z * string)) : option (Z * string) :=
  match o with
  | Some (m, String c r) => if Ascii.eqb c "-" then Some (m, r) else None
  | _ => None
  end.

Definition re_m_dash (s : string) : option (Z * string) :=
  orelse (then_dash (re_two "1" "0" "2" s))
    (orelse (then_dash (re_two "0" "1" "9" s)) (then_dash (re_one "1" "9" s))).

(** The day group ends the pattern: its first matching alternative wins. *)
Definition re_d (s : string) : option (Z * string) :=
  orelse (re_two "3" "0" "1" s)
    (orelse (match s with
             | String a (String b r) =>
                 if in_range a "1" "2" && is_digit b
                 then Some ((10 * digit_val a + digit_val b)%Z, r) else None
             | _ => None end)
      (orelse (re_two "0" "1" "9" s)
        (orelse (re_one "1" "9" s)
           (match s with
            | String a r => if Ascii.eqb a " " then re_one "1" "9" r else None
            | _ => None end)))).

Definition is_leap (y : Z) : bool :=
  ((Z.eqb (y mod 4) 0 && negb (Z.eqb (y mod 100) 0)) || Z.eqb (y mod 400) 0)%Z.

Definition days_in_month (y m : Z) : Z :=
  (if Z.eqb m 2 then (if is_leap y then 29 else 28)
   else if (Z.eqb m 4 || Z.eqb m 6 || Z.eqb m 9 || Z.eqb m 11) then 30 else 31)%Z.

(** [datetime.datetime.strptime(s, "%Y-%m-%d").date()]; [None] is the
    [ValueError] (no match, unconverted data remains, or [date(y, m, d)]
    out of range: [MINYEAR = 1]).  The digits read are ASCII ones, which
    are all that [\d] matches in ASCII text ([ascii_text]); [\d] also
    matches the other Unicode decimal digits. *)
Definition strptime (s : string) : option date :=
  match re_Y s with
  | Some (y, String c r1) =>
      if Ascii.eqb c "-" then
        match re_m_dash r1 with
        | Some (m, r2) =>
            match re_d r2 with
            | Some (d, EmptyString) =>
                if (1 <=? y)%Z && (1 <=? d)%Z && (d <=? days_in_month y m)%Z
                then Some (mkDate y m d) else None
            | _ => None
            end
        | None => None
        end
      else None
  | _ => None
  end.

(** A text of ASCII characters only. *)
Definition ascii_text (s : string) : bool :=
  forallb (fun c => (nat_of_ascii c <? 128)%nat) (list_ascii_of_string s).

(* ------------------------------------------------------------------ *)
(** ** Database models (tables [accounts] and [demands]) *)

(** [AccountModel]; [id] is the primary key.  Every other business column is
    nullable; [AccountUpdate] can write [None] to any of them except
    [probability] (see [AccountUpdate]). *)
Record AccountModel := mkAccount {
  acc_id : string;
  client : option string;
  acc_project : option string;
  vertical : option string;
  geo : option string;
  acc_start_month : option string;
  revised_start_date : option date;
  planned_start_date : option date;
  planned_end_date : option date;
  acc_probability : Z;
  opportunity_status : option string;
  sow_status : option string;
  project_status : option string;
  client_partner : option string;
  proposal_anchor : option string;
  delivery_partner : option string;
  acc_comment : option string;
  acc_last_updated_by : string;
  acc_updated_on : date;
  acc_added_by : string;
  acc_added_on : date }.

(** [DemandModel]; [sno] is the integer primary key (rowid alias), [id] is
    UNIQUE, [account_id] references [accounts.id]. *)
Record DemandModel := mkDemand {
  sno : Z;
  dem_id : string;
  dem_account_id : option string;
  dem_project : option string;
  role : option string;
  role_code : option string;
  location : option string;
  revised : option string;
  original_start_date : option date;
  allocation_end_date : option date;
  allocation_percentage : option Z;
  dem_probability : option Z;
  status : option string;
  resource_mapped : option string;
  dem_comment : option string;
  dem_last_updated_by : string;
  dem_updated_on : date;
  dem_added_by : string;
  dem_added_on : date;
  dem_start_month : option string }.

Record store := mkStore {
  accounts : list AccountModel;
  demands : list DemandModel }.

Definition empty_store : store := mkStore [] [].

(* ------------------------------------------------------------------ *)
(** ** Request schemas (pydantic) *)

(** [ProbabilityEnum]: the type admits only the four values. *)
Inductive ProbabilityEnum := FIFTY | SEVENTY_FIVE | NINETY | HUNDRED.

Definition probability_value (p : ProbabilityEnum) : Z :=
  match p with FIFTY => 50 | SEVENTY_FIVE => 75 | NINETY => 90 | HUNDRED => 100 end%Z.

Record AccountCreate := mkAccountCreate {
  ac_client : string;
  ac_project : string;
  ac_vertical : string;
  ac_geo : string;
  ac_start_month : string;
  ac_revised_start_date : option string;
  ac_planned_start_date : option string;
  ac_planned_end_date : option string;
  ac_probability : ProbabilityEnum;
  ac_opportunity_status : string;
  ac_sow_status : string;
  ac_project_status : string;
  ac_client_partner : string;
  ac_proposal_anchor : string;
  ac_delivery_partner : string;
  ac_comment : option string }.

(** [AccountUpdate] as seen through [.dict(exclude_unset=True)]: a field is
    [None] when unset, [Some v] when set, where [v] is [None] for an explicit
    JSON null.  An explicit null [probability] is refused by the
    [validate_probability] validator (it runs on [None] too), so a set
    [probability] is always one of the four values. *)
Record AccountUpdate := mkAccountUpdate {
  au_client : option (option string);
  au_project : option (option string);
  au_vertical : option (option string);
  au_geo : option (option string);
  au_start_month : option (option string);
  au_revised_start_date : option (option string);
  au_planned_start_date : option (option string);
  au_planned_end_date : option (option string);
  au_probability : option ProbabilityEnum;
  au_opportunity_status : option (option string);
  au_sow_status : option (option string);
  au_project_status : option (option string);
  au_client_partner : option (option string);
  au_proposal_anchor : option (option string);
  au_delivery_partner : option (option string);
  au_comment : option (option string) }.

Record DemandCreate := mkDemandCreate {
  dc_account_id : string;
  dc_project : string;
  dc_role : string;
  dc_role_code : string;
  dc_location : string;
  dc_revised : option string;
  dc_original_start_date : option string;
  dc_allocation_end_date : option string;
  dc_allocation_percentage : Z;
  dc_probability : Z;
  dc_status : string;
  dc_resource_mapped : option string;
  dc_comment : option string;
  dc_start_month : string }.

(** [DemandUpdate] through [.dict(exclude_unset=True)], as [AccountUpdate]. *)
Record DemandUpdate := mkDemandUpdate {
  du_account_id : option (option string);
  du_project : option (option string);
  du_role : option (option string);
  du_role_code : option (option string);
  du_location : option (option string);
  du_revised : option (option string);
  du_original_start_date : option (option string);
  du_allocation_end_date : option (option string);
  du_allocation_percentage : option (option Z);
  du_probability : option (option Z);
  du_status : option (option string);
  du_resource_mapped : option (option string);
  du_comment : option (option string);
  du_start_month : option (option string) }.

(* ------------------------------------------------------------------ *)
(** ** Exceptions and the commit-or-raise outcome of a service call *)

Inductive exn :=
  | HTTPException (status_code : Z) (detail : string)
  | ValueError        (** [strptime] failure, invalid search entity *)
  | TypeError         (** SQLite [Date] column bound to a [str] at flush *)
  | IntegrityError    (** primary key / UNIQUE violation at commit *)
  | OperationalError. (** SQLite error raised while a query runs *)

Definition outcome (A : Type) : Type := (exn + (A * store))%type.

Definition bind_exn {A B} (m : exn + A) (k : A -> exn + B) : exn + B :=
  match m with inl e => inl e | inr a => k a end.

Notation "x <-? m ;; k" := (bind_exn m (fun x => k))
  (at level 62, m at next level, right associativity).

(** The store after a call: unchanged when the call raised. *)
Definition post {A} (db : store) (r : outcome A) : store :=
  match r with inl _ => db | inr (_, db') => db' end.

(* ------------------------------------------------------------------ *)
(** ** Shared helpers of the services *)

(** [Column == value] in a filter: SQL equality, never true on NULL. *)
Definition col_eq (c : option string) (v : string) : bool :=
  match c with Some s => String.eqb s v | None => false end.

(** [if x:] on an optional date string in the create methods, then
    [strptime(x, "%Y-%m-%d").date()]: [None] and [""] both give [None]. *)
Definition create_date (v : option string) : exn + option date :=
  match v with
  | None => inr None
  | Some s =>
      if String.eqb s "" then inr None
      else match strptime s with Some d => inr (Some d) | None => inl ValueError end
  end.

(** The value of [update_data[key]] for a date key after the conversion
    statements of the update methods. *)
Inductive date_attr := ANone | ADate (d : date) | AStr (s : string).

(** [if key in update_data and update_data[key]: update_data[key] =
    strptime(update_data[key], "%Y-%m-%d").date()]; an explicit null or an
    empty (falsy) string is left as it is.  [None] = key absent. *)
Definition convert_date (u : option (option string)) : exn + option date_attr :=
  match u with
  | None => inr None
  | Some None => inr (Some ANone)
  | Some (Some s) =>
      if String.eqb s "" then inr (Some (AStr s))
      else match strptime s with
           | Some d => inr (Some (ADate d))
           | None => inl ValueError
           end
  end.

(** Binding a [Date] column at flush: SQLite's [Date] type accepts a
    [date] or [None] and raises [TypeError] on a [str]. *)
Definition flush_date (v : option date_attr) : exn + option (option date) :=
  match v with
  | None => inr None
  | Some ANone => inr (Some None)
  | Some (ADate d) => inr (Some (Some d))
  | Some (AStr _) => inl TypeError
  end.

(** [for key, value in update_data.items(): setattr(obj, key, value)]
    seen from one attribute: written when the key is in [update_data]. *)
Definition setattr {A} (u : option A) (old : A) : A :=
  match u with Some v => v | None => old end.

(* ------------------------------------------------------------------ *)
(** ** [AccountService] *)

Definition get_all_accounts (db : store) : list AccountModel := accounts db.

Definition get_account_by_id (db : store) (account_id : string) : option AccountModel :=
  List.find (fun a => String.eqb (acc_id a) account_id) (accounts db).

(** [db.add(account); db.commit()]: the INSERT is refused on a duplicate
    primary key. *)
Definition insert_account (db : store) (a : AccountModel) : exn + store :=
  if existsb (fun b => String.eqb (acc_id b) (acc_id a)) (accounts db)
  then inl IntegrityError
  else inr (mkStore (accounts db ++ [a]) (demands db)).

(** [create_account]; [clock_id] and [clock_now] are the two
    [datetime.datetime.now()] readings (for [new_id] and for [now]). *)
Definition create_account (db : store) (account_data : AccountCreate)
    (user_id : string) (clock_id clock_now : datetime) : outcome AccountModel :=
  let new_id := "ACC-" +:+ strftime_ts clock_id in
  let now := dt_date clock_now in
  revised_start <-? create_date (ac_revised_start_date account_data) ;;
  planned_start <-? create_date (ac_planned_start_date account_data) ;;
  planned_end <-? create_date (ac_planned_end_date account_data) ;;
  let account := {|
    acc_id := new_id;
    client := Some (ac_client account_data);
    acc_project := Some (ac_project account_data);
    vertical := Some (ac_vertical account_data);
    geo := Some (ac_geo account_data);
    acc_start_month := Some (ac_start_month account_data);
    revised_start_date := revised_start;
    planned_start_date := planned_start;
    planned_end_date := planned_end;
    acc_probability := probability_value (ac_probability account_data);
    opportunity_status := Some (ac_opportunity_status account_data);
    sow_status := Some (ac_sow_status account_data);
    project_status := Some (ac_project_status account_data);
    client_partner := Some (ac_client_partner account_data);
    proposal_anchor := Some (ac_proposal_anchor account_data);
    delivery_partner := Some (ac_delivery_partner account_data);
    acc_comment := ac_comment account_data;
    acc_last_updated_by := user_id;
    acc_updated_on := now;
    acc_added_by := user_id;
    acc_added_on := now |} in
  db' <-? insert_account db account ;;
  inr (account, db').

(** [update_account]: [inr (None, db)] is the [return None] of a missing id. *)
Definition update_account (db : store) (account_id : string)
    (account_data : AccountUpdate) (user_id : string) (clock_now : datetime)
    : outcome (option AccountModel) :=
  match get_account_by_id db account_id with
  | None => inr (None, db)
  | Some account =>
      rsd <-? convert_date (au_revised_start_date account_data) ;;
      psd <-? convert_date (au_planned_start_date account_data) ;;
      ped <-? convert_date (au_planned_end_date account_data) ;;
      (* db.commit(): the UPDATE binds the date columns *)
      rsd' <-? flush_date rsd ;;
      psd' <-? flush_date psd ;;
      ped' <-? flush_date ped ;;
      let account' := {|
        acc_id := acc_id account;
        client := setattr (au_client account_data) (client account);
        acc_project := setattr (au_project account_data) (acc_project account);
        vertical := setattr (au_vertical account_data) (vertical account);
        geo := setattr (au_geo account_data) (geo account);
        acc_start_month := setattr (au_start_month account_data) (acc_start_month account);
        revised_start_date := setattr rsd' (revised_start_date account);
        planned_start_date := setattr psd' (planned_start_date account);
        planned_end_date := setattr ped' (planned_end_date account);
        acc_probability :=
          setattr (option_map probability_value (au_probability account_data))
                  (acc_probability account);
        opportunity_status := setattr (au_opportunity_status account_data) (opportunity_status account);
        sow_status := setattr (au_sow_status account_data) (sow_status account);
        project_status := setattr (au_project_status account_data) (project_status account);
        client_partner := setattr (au_client_partner account_data) (client_partner account);
        proposal_anchor := setattr (au_proposal_anchor account_data) (proposal_anchor account);
        delivery_partner := setattr (au_delivery_partner account_data) (delivery_partner account);
        acc_comment := setattr (au_comment account_data) (acc_comment account);
        acc_last_updated_by := user_id;
        acc_updated_on := dt_date clock_now;
        acc_added_by := acc_added_by account;
        acc_added_on := acc_added_on account |} in
      inr (Some account',
           mkStore (map (fun a => if String.eqb (acc_id a) (acc_id account) then account' else a)
                        (accounts db))
                   (demands db))
  end.

(** [delete_account]: [False] for a missing id or when a demand references
    the account; otherwise [DELETE] of the row. *)
Definition delete_account (db : store) (account_id : string) : outcome bool :=
  match get_account_by_id db account_id with
  | None => inr (false, db)
  | Some account =>
      let n := length (List.filter (fun d => col_eq (dem_account_id d) account_id) (demands db)) in
      if (0 <? n)%nat then inr (false, db)
      else inr (true, mkStore (List.filter (fun a => negb (String.eqb (acc_id a) (acc_id account)))
                                      (accounts db))
                              (demands db))
  end.

(* ------------------------------------------------------------------ *)
(** ** [DemandService] *)

Definition get_all_demands (db : store) : list DemandModel := demands db.

Definition get_demand_by_id (db : store) (demand_id : string) : option DemandModel :=
  List.find (fun d => String.eqb (dem_id d) demand_id) (demands db).

Definition get_demands_by_account (db : store) (account_id : string) : list DemandModel :=
  List.filter (fun d => col_eq (dem_account_id d) account_id) (demands db).

(** The rowid SQLite gives a new row of an [INTEGER PRIMARY KEY] table:
    one more than the largest one in use. *)
Definition next_sno (ds : list DemandModel) : Z :=
  (1 + fold_right (fun d m => Z.max (sno d) m) 0 ds)%Z.

Definition with_sno (n : Z) (d : DemandModel) : DemandModel :=
  mkDemand n (dem_id d) (dem_account_id d) (dem_project d) (role d) (role_code d)
    (location d) (revised d) (original_start_date d) (allocation_end_date d)
    (allocation_percentage d) (dem_probability d) (status d) (resource_mapped d)
    (dem_comment d) (dem_last_updated_by d) (dem_updated_on d) (dem_added_by d)
    (dem_added_on d) (dem_start_month d).

(** One INSERT into [demands] at flush; refused by the UNIQUE index on
    [id].  Returns the refreshed row (with its [sno]) and the table. *)
Definition insert_demand (ds : list DemandModel) (d : DemandModel)
    : exn + (DemandModel * list DemandModel) :=
  if existsb (fun e => String.eqb (dem_id e) (dem_id d)) ds then inl IntegrityError
  else let d' := with_sno (next_sno ds) d in inr (d', (ds ++ [d'])%list).

(** The INSERTs of the rows added to the session, in [db.add] order, all
    in the transaction of one [db.commit()]. *)
Fixpoint insert_demands (ds : list DemandModel) (news : list DemandModel)
    : exn + (list DemandModel * list DemandModel) :=
  match news with
  | [] => inr ([], ds)
  | d :: rest =>
      r <-? insert_demand ds d ;;
      r' <-? insert_demands (snd r) rest ;;
      inr (fst r :: fst r', snd r')
  end.

(** [create_demand]; the new row's [sno] is assigned at insert. *)
Definition create_demand (db : store) (demand_data : DemandCreate)
    (user_id : string) (clock_id clock_now : datetime) : outcome DemandModel :=
  match get_account_by_id db (dc_account_id demand_data) with
  | None => inl (HTTPException 404 "Referenced account not found")
  | Some _ =>
      let new_id := "DEM-" +:+ strftime_ts clock_id in
      let now := dt_date clock_now in
      original_start <-? create_date (dc_original_start_date demand_data) ;;
      allocation_end <-? create_date (dc_allocation_end_date demand_data) ;;
      let demand := {|
        sno := 0;
        dem_id := new_id;
        dem_account_id := Some (dc_account_id demand_data);
        dem_project := Some (dc_project demand_data);
        role := Some (dc_role demand_data);
        role_code := Some (dc_role_code demand_data);
        location := Some (dc_location demand_data);
        revised := dc_revised demand_data;
        original_start_date := original_start;
        allocation_end_date := allocation_end;
        allocation_percentage := Some (dc_allocation_percentage demand_data);
        dem_probability := Some (dc_probability demand_data);
        status := Some (dc_status demand_data);
        resource_mapped := dc_resource_mapped demand_data;
        dem_comment := dc_comment demand_data;
        dem_last_updated_by := user_id;
        dem_updated_on := now;
        dem_added_by := user_id;
        dem_added_on := now;
        dem_start_month := Some (dc_start_month demand_data) |} in
      r <-? insert_demand (demands db) demand ;;
      inr (fst r, mkStore (accounts db) (snd r))
  end.

(** [AccountModel.id == value]: a [None] value compiles to [IS NULL], which
    no account row satisfies. *)
Definition account_exists (db : store) (v : option string) : bool :=
  match v with
  | None => false
  | Some s => match get_account_by_id db s with Some _ => true | None => false end
  end.

(** [update_demand]: [inr (None, db)] is the [return None] of a missing id. *)
Definition update_demand (db : store) (demand_id : string)
    (demand_data : DemandUpdate) (user_id : string) (clock_now : datetime)
    : outcome (option DemandModel) :=
  match get_demand_by_id db demand_id with
  | None => inr (None, db)
  | Some demand =>
      checked <-? match du_account_id demand_data with
                  | Some v =>
                      if account_exists db v then inr tt
                      else inl (HTTPException 404 "Referenced account not found")
                  | None => inr tt
                  end ;;
      osd <-? convert_date (du_original_start_date demand_data) ;;
      aed <-? convert_date (du_allocation_end_date demand_data) ;;
      (* db.commit(): the UPDATE binds the date columns *)
      osd' <-? flush_date osd ;;
      aed' <-? flush_date aed ;;
      let demand' := {|
        sno := sno demand;
        dem_id := dem_id demand;
        dem_account_id := setattr (du_account_id demand_data) (dem_account_id demand);
        dem_project := setattr (du_project demand_data) (dem_project demand);
        role := setattr (du_role demand_data) (role demand);
        role_code := setattr (du_role_code demand_data) (role_code demand);
        location := setattr (du_location demand_data) (location demand);
        revised := setattr (du_revised demand_data) (revised demand);
        original_start_date := setattr osd' (original_start_date demand);
        allocation_end_date := setattr aed' (allocation_end_date demand);
        allocation_percentage := setattr (du_allocation_percentage demand_data) (allocation_percentage demand);
        dem_probability := setattr (du_probability demand_data) (dem_probability demand);
        status := setattr (du_status demand_data) (status demand);
        resource_mapped := setattr (du_resource_mapped demand_data) (resource_mapped demand);
        dem_comment := setattr (du_comment demand_data) (dem_comment demand);
        dem_last_updated_by := user_id;
        dem_updated_on := dt_date clock_now;
        dem_added_by := dem_added_by demand;
        dem_added_on := dem_added_on demand;
        dem_start_month := setattr (du_start_month demand_data) (dem_start_month demand) |} in
      inr (Some demand',
           mkStore (accounts db)
                   (map (fun d => if Z.eqb (sno d) (sno demand) then demand' else d) (demands db)))
  end.

Definition delete_demand (db : store) (demand_id : string) : outcome bool :=
  match get_demand_by_id db demand_id with
  | None => inr (false, db)
  | Some demand =>
      inr (true, mkStore (accounts db)
                         (List.filter (fun d => negb (Z.eqb (sno d) (sno demand))) (demands db)))
  end.

(** [f"DEM-CLONE-{datetime.datetime.now().strftime('%Y%m%d%H%M%S')}-{i}"] *)
Definition clone_id (t : datetime) (i : nat) : string :=
  "DEM-CLONE-" +:+ strftime_ts t +:+ "-" +:+ pretty i.

(** The [DemandModel(...)] built in the loop of [clone_demand]. *)
Definition make_clone (source_demand : DemandModel) (new_id user_id : string)
    (now : date) : DemandModel := {|
  sno := 0;
  dem_id := new_id;
  dem_account_id := dem_account_id source_demand;
  dem_project := dem_project source_demand;
  role := role source_demand;
  role_code := role_code source_demand;
  location := location source_demand;
  revised := revised source_demand;
  original_start_date := original_start_date source_demand;
  allocation_end_date := allocation_end_date source_demand;
  allocation_percentage := allocation_percentage source_demand;
  dem_probability := dem_probability source_demand;
  status := status source_demand;
  resource_mapped := resource_mapped source_demand;
  dem_comment := dem_comment source_demand;
  dem_last_updated_by := user_id;
  dem_updated_on := now;
  dem_added_by := user_id;
  dem_added_on := now;
  dem_start_month := dem_start_month source_demand |}.

(** [clone_demand]: [clock_now] is the reading for [now], [clock i] the one
    taken for the id at iteration [i] of [for i in range(count)]. *)
Definition clone_demand (db : store) (demand_id : string) (count : Z)
    (user_id : string) (clock_now : datetime) (clock : nat -> datetime)
    : outcome (list DemandModel) :=
  match get_demand_by_id db demand_id with
  | None => inl (HTTPException 404 "Demand not found")
  | Some source_demand =>
      let now := dt_date clock_now in
      let clones := map (fun i => make_clone source_demand (clone_id (clock i) i) user_id now)
                        (seq 0 (Z.to_nat count)) in
      r <-? insert_demands (demands db) clones ;;
      inr (fst r, mkStore (accounts db) (snd r))
  end.

(* ------------------------------------------------------------------ *)
(** ** [DashboardService.search] *)
















(* ------------------------------------------------------------------ *)
(** ** The write operations as transitions of the store *)

Inductive op :=
  | OpCreateAccount (data : AccountCreate) (user_id : string) (clock_id clock_now : datetime)
  | OpUpdateAccount (account_id : string) (data : AccountUpdate) (user_id : string)
                    (clock_now : datetime)
  | OpDeleteAccount (account_id : string)
  | OpCreateDemand (data : DemandCreate) (user_id : string) (clock_id clock_now : datetime)
  | OpUpdateDemand (demand_id : string) (data : DemandUpdate) (user_id : string)
                   (clock_now : datetime)
  | OpDeleteDemand (demand_id : string)
  | OpCloneDemand (demand_id : string) (count : Z) (user_id : string)
                  (clock_now : datetime) (clock : nat -> datetime).

Definition exec (db : store) (o : op) : store :=
  match o with
  | OpCreateAccount data u t1 t2 => post db (create_account db data u t1 t2)
  | OpUpdateAccount i data u t => post db (update_account db i data u t)
  | OpDeleteAccount i => post db (delete_account db i)
  | OpCreateDemand data u t1 t2 => post db (create_demand db data u t1 t2)
  | OpUpdateDemand i data u t => post db (update_demand db i data u t)
  | OpDeleteDemand i => post db (delete_demand db i)
  | OpCloneDemand i n u t clk => post db (clone_demand db i n u t clk)
  end.

(** Stores reachable from the empty database by the service operations. *)
Inductive reachable : store -> Prop :=
  | reachable_empty : reachable empty_store
  | reachable_exec db o : reachable db -> reachable (exec db o).

(** Referential integrity: every demand's [account_id] is the id of an
    account row. *)
Definition refint (db : store) : Prop :=
  Forall (fun d => exists a, In a (accounts db) /\ dem_account_id d = Some (acc_id a))
         (demands db).

(* ------------------------------------------------------------------ *)
(** ** Vocabulary of the statements *)









(** A timestamp made of decimal digits only. *)
Fixpoint all_digits (s : string) : bool :=
  match s with EmptyString => true | String c s' => is_digit c && all_digits s' end.

(** The partial inputs of the statements. *)
Definition no_account_update : AccountUpdate :=
  mkAccountUpdate None None None None None None None None None None None None None
    None None None.

Definition comment_only (c : string) : AccountUpdate :=
  mkAccountUpdate None None None None None None None None None None None None None
    None None (Some (Some c)).

Definition null_account_dates : AccountUpdate :=
  mkAccountUpdate None None None None None (Some None) (Some None) (Some None) None None
    None None None None None None.

Definition no_demand_update : DemandUpdate :=
  mkDemandUpdate None None None None None None None None None None None None None None.

Definition null_demand_dates : DemandUpdate :=
  mkDemandUpdate None None None None None None (Some None) (Some None) None None None
    None None None.

(** A field of a partial update is written when set and kept when unset. *)
Definition written_or_kept {A} (u : option A) (old new : A) : Prop :=
  (u = None -> new = old) /\ (forall v, u = Some v -> new = v).

(** The same for a date column: a set date string is stored parsed, an
    explicit null clears the column. *)
Definition date_written_or_kept (u : option (option string)) (old new : option date) : Prop :=
  (u = None -> new = old) /\ (u = Some None -> new = None) /\
  (forall s, u = Some (Some s) -> exists d, strptime s = Some d /\ new = Some d).

(** Partial inputs setting the status column to an explicit null. *)
Definition null_opportunity_status : AccountUpdate :=
  mkAccountUpdate None None None None None None None None None (Some None) None None None
    None None None.

Definition null_demand_status : DemandUpdate :=
  mkDemandUpdate None None None None None None None None None None (Some None) None None None.

(** Concrete data for the witnesses and counterexamples. *)
Definition t0 : datetime := mkDatetime (mkDate 2024 1 5) 9 3 7.

Definition sample_account_create : AccountCreate :=
  mkAccountCreate "Acme" "Apollo" "BFSI" "EMEA" "Jan" None (Some "2024-02-01") None
    SEVENTY_FIVE "Open" "Signed" "Active" "Cara" "Dev" "Lee" None.

Definition sample_db1 : store :=
  post empty_store (create_account empty_store sample_account_create "system@example.com" t0 t0).

Definition sample_demand_create : DemandCreate :=
  mkDemandCreate "ACC-20240105090307" "Apollo" "Engineer" "E1" "Pune" None None None
    100 75 "Open" None None "Jan".

Definition sample_db2 : store :=
  post sample_db1 (create_demand sample_db1 sample_demand_create "system@example.com" t0 t0).

(** A demand row that is itself a clone made at [t0]. *)
Definition sample_clone_row : DemandModel := {|
  sno := 1;
  dem_id := "DEM-CLONE-20240105090307-0";
  dem_account_id := Some "ACC-20240105090307";
  dem_project := Some "Apollo";
  role := Some "Engineer";
  role_code := Some "E1";
  location := Some "Pune";
  revised := None;
  original_start_date := None;
  allocation_end_date := None;
  allocation_percentage := Some 100%Z;
  dem_probability := Some 75%Z;
  status := Some "Open";
  resource_mapped := None;
  dem_comment := None;
  dem_last_updated_by := "system@example.com";
  dem_updated_on := mkDate 2024 1 5;
  dem_added_by := "system@example.com";
  dem_added_on := mkDate 2024 1 5;
  dem_start_month := Some "Jan" |}.

Definition sample_db3 : store := mkStore (accounts sample_db1) [sample_clone_row].

(* ------------------------------------------------------------------ *)
(** ** [DashboardService.get_dashboard_stats] *)

Definition opt_str_eq_dec (x y : option string) : {x = y} + {x <> y} := decide (x = y).

(** [db.query(col, func.count(Model.id)).group_by(col).all()]: one row per
    distinct value of the column, the NULL rows forming one group, with the
    number of rows of the group ([id] is never NULL).  SQLite returns the
    groups in key order; the order only affects the order of the keys of the
    dict built from them. *)
Definition group_count (ks : list (option string)) : list (option string * nat) :=
  map (fun k => (k, count_occ opt_str_eq_dec ks k)) (nodup opt_str_eq_dec ks).

(** [d[k] = v] on a Python dict (an association list in insertion order). *)
Definition dict_set (d : list (option string * nat)) (k : option string) (v : nat)
    : list (option string * nat) :=
  if existsb (fun p => if opt_str_eq_dec (fst p) k then true else false) d
  then map (fun p => if opt_str_eq_dec (fst p) k then (k, v) else p) d
  else (d ++ [(k, v)])%list.

(** [d = {}; for status, count in rows: d[status] = count] *)
Definition dict_of_rows (rows : list (option string * nat)) : list (option string * nat) :=
  fold_left (fun d p => dict_set d (fst p) (snd p)) rows [].

(** Pydantic validation of a [Dict[str, int]] field: a [None] key is not a
    [str], and [DashboardStats(...)] raises [ValidationError] (a
    [ValueError]). *)
Fixpoint validate_str_keys (d : list (option string * nat)) : exn + list (string * nat) :=
  match d with
  | [] => inr []
  | (None, _) :: _ => inl ValueError
  | (Some k, n) :: rest => rest' <-? validate_str_keys rest ;; inr ((k, n) :: rest')
  end.

Record DashboardStats := mkDashboardStats {
  totalAccounts : nat;
  totalDemands : nat;
  accountsByStatus : list (string * nat);
  demandsByStatus : list (string * nat) }.

Definition get_dashboard_stats (db : store) : exn + DashboardStats :=
  let total_accounts := length (accounts db) in
  let total_demands := length (demands db) in
  let accounts_by_status := dict_of_rows (group_count (map opportunity_status (accounts db))) in
  let demands_by_status := dict_of_rows (group_count (map status (demands db))) in
  abs <-? validate_str_keys accounts_by_status ;;
  dbs <-? validate_str_keys demands_by_status ;;
  inr (mkDashboardStats total_accounts total_demands abs dbs).

(** [d.get(k)] on a validated dict. *)
Definition dict_get (d : list (string * nat)) (k : string) : option nat :=
  option_map snd (List.find (fun p => String.eqb (fst p) k) d).

(* ------------------------------------------------------------------ *)
(** ** Dates in the responses *)

(** [date.isoformat()]: ['%04d-%02d-%02d']. *)
Definition isoformat (d : date) : string :=
  fmt_num 4 (year d) +:+ "-" +:+ fmt_num 2 (month d) +:+ "-" +:+ fmt_num 2 (day d).

(** A [date] value: [MINYEAR <= year <= MAXYEAR], a month, a day of it. *)
Definition valid_date (d : date) : Prop :=
  (1 <= year d <= 9999)%Z /\ (1 <= month d <= 12)%Z /\
  (1 <= day d <= days_in_month (year d) (month d))%Z.

(* ------------------------------------------------------------------ *)
(** ** API layer (FastAPI routes) *)

(** [get_current_user] *)
Definition get_current_user : string := "system@example.com".

(** The [detail] of an error response: a literal string, [str(e)] of a
    caught exception, or the request-validation errors of FastAPI. *)
Inductive detail := DText (s : string) | DStr (e : exn) | DValidation.

(** A response: [ApiResponse(success=True, message, data)] with status 200,
    or an error response with its status code.  [data] holds the rows
    themselves; the routes send their date columns as [isoformat]
    strings. *)
Inductive response (A : Type) :=
  | Success (message : option string) (data : A)
  | Failure (status_code : Z) (d : detail).
Arguments Success {A} message data.
Arguments Failure {A} status_code d.

(** An exception that leaves a route: an [HTTPException] is its own
    response; any other is answered 500 by the server. *)
Definition uncaught {A} (e : exn) : response A :=
  match e with
  | HTTPException c s => Failure c (DText s)
  | _ => Failure 500 (DText "Internal Server Error")
  end.

(** [except HTTPException as e: raise e] then
    [except Exception as e: raise HTTPException(status_code=400, detail=str(e))]. *)
Definition reraise_or_400 {A} (e : exn) : response A :=
  match e with
  | HTTPException c s => Failure c (DText s)
  | _ => Failure 400 (DStr e)
  end.

(** A route returns its response and the store as committed; the session of
    [get_db] is closed without a commit when the call raised. *)
Definition api_get_account (db : store) (account_id : string) : response AccountModel * store :=
  match get_account_by_id db account_id with
  | None => (Failure 404 (DText "Account not found"), db)
  | Some account => (Success None account, db)
  end.

(** [POST /api/accounts]: the whole call is in [try ... except Exception]. *)
Definition api_create_account (db : store) (account : AccountCreate)
    (clock_id clock_now : datetime) : response AccountModel * store :=
  match create_account db account get_current_user clock_id clock_now with
  | inl e => (Failure 400 (DStr e), db)
  | inr (new_account, db') => (Success (Some "Account added successfully") new_account, db')
  end.

(** [PUT /api/accounts/{account_id}]: no [try]. *)
Definition api_update_account (db : store) (account_id : string) (account : AccountUpdate)
    (clock_now : datetime) : response AccountModel * store :=
  match update_account db account_id account get_current_user clock_now with
  | inl e => (uncaught e, db)
  | inr (None, db') => (Failure 404 (DText "Account not found"), db')
  | inr (Some updated_account, db') =>
      (Success (Some "Account updated successfully") updated_account, db')
  end.

(** [DELETE /api/accounts/{account_id}] *)
Definition api_delete_account (db : store) (account_id : string) : response bool * store :=
  match delete_account db account_id with
  | inl e => (uncaught e, db)
  | inr (false, db') =>
      (Failure 400 (DText "Account not found or cannot be deleted due to linked demands"), db')
  | inr (true, db') => (Success (Some "Account deleted successfully") true, db')
  end.

(** [GET /api/demands/{demand_id}] *)
Definition api_get_demand (db : store) (demand_id : string) : response DemandModel * store :=
  match get_demand_by_id db demand_id with
  | None => (Failure 404 (DText "Demand not found"), db)
  | Some demand => (Success None demand, db)
  end.

(** [GET /api/accounts/{account_id}/demands] *)
Definition api_get_demands_by_account (db : store) (account_id : string)
    : response (list DemandModel) * store :=
  match get_account_by_id db account_id with
  | None => (Failure 404 (DText "Account not found"), db)
  | Some _ => (Success None (get_demands_by_account db account_id), db)
  end.

(** [POST /api/demands] *)
Definition api_create_demand (db : store) (demand : DemandCreate)
    (clock_id clock_now : datetime) : response DemandModel * store :=
  match create_demand db demand get_current_user clock_id clock_now with
  | inl e => (reraise_or_400 e, db)
  | inr (new_demand, db') => (Success (Some "Demand added successfully") new_demand, db')
  end.

(** [PUT /api/demands/{demand_id}]: the 404 for a missing demand is raised
    inside the [try] and re-raised by [except HTTPException]. *)
Definition api_update_demand (db : store) (demand_id : string) (demand : DemandUpdate)
    (clock_now : datetime) : response DemandModel * store :=
  match update_demand db demand_id demand get_current_user clock_now with
  | inl e => (reraise_or_400 e, db)
  | inr (None, _) => (Failure 404 (DText "Demand not found"), db)
  | inr (Some updated_demand, db') =>
      (Success (Some "Demand updated successfully") updated_demand, db')
  end.

(** [DELETE /api/demands/{demand_id}] *)
Definition api_delete_demand (db : store) (demand_id : string) : response bool * store :=
  match delete_demand db demand_id with
  | inl e => (uncaught e, db)
  | inr (false, db') => (Failure 404 (DText "Demand not found"), db')
  | inr (true, db') => (Success (Some "Demand deleted successfully") true, db')
  end.

(** [POST /api/demands/{demand_id}/clone?count=...]: [count] is
    [Query(1, ge=1, le=10)], [None] when absent; out of bounds the request
    is refused with 422 before the handler runs. *)
Definition api_clone_demand (db : store) (demand_id : string) (count : option Z)
    (clock_now : datetime) (clock : nat -> datetime) : response (list DemandModel) * store :=
  let count := match count with Some c => c | None => 1%Z end in
  if (1 <=? count)%Z && (count <=? 10)%Z then
    match clone_demand db demand_id count get_current_user clock_now clock with
    | inl e => (reraise_or_400 e, db)
    | inr (clones, db') =>
        (Success (Some (pretty count +:+ " demand(s) cloned successfully")) clones, db')
    end
  else (Failure 422 DValidation, db).

(** [GET /api/dashboard/stats]: no [try]. *)
Definition api_get_dashboard_stats (db : store) : response DashboardStats * store :=
  match get_dashboard_stats db with
  | inl e => (uncaught e, db)
  | inr stats => (Success None stats, db)
  end.

(* ------------------------------------------------------------------ *)
(** ** Keys of the tables *)

(** What the primary keys and the UNIQUE index guarantee of the stored
    rows: distinct account ids, distinct demand ids, and [sno] increasing
    along the rowid order of the list. *)
Definition keys_ok (db : store) : Prop :=
  NoDup (map acc_id (accounts db)) /\ NoDup (map dem_id (demands db)) /\
  StronglySorted (fun d e => (sno d < sno e)%Z) (demands db).

(* ================================================================== *)
(** * Properties *)

(** ** Lookups *)

Lemma find_none_intro {A} (f : A -> bool) (l : list A) :
  (forall x, In x l -> f x = false) -> List.find f l = None.
Proof.
  induction l as [|x l IH]; intros H; simpl; [reflexivity|].
  rewrite (H x (or_introl eq_refl)). apply IH. intros y Hy. apply H. right. exact Hy.
Qed.

Lemma get_account_by_id_None (db : store) (i : string) :
  (forall a, In a (accounts db) -> acc_id a <> i) -> get_account_by_id db i = None.
Proof.
  intros H. apply find_none_intro. intros a Ha. apply String.eqb_neq. auto.
Qed.

Lemma get_account_by_id_Some (db : store) (i : string) (a : AccountModel) :
  get_account_by_id db i = Some a -> In a (accounts db) /\ acc_id a = i.
Proof.
  intros H. apply find_some in H as [H1 H2]. apply String.eqb_eq in H2. auto.
Qed.

Lemma get_account_by_id_absent (db : store) (i : string) :
  get_account_by_id db i = None -> forall a, In a (accounts db) -> acc_id a <> i.
Proof.
  intros H a Ha Heq. pose proof (find_none _ _ H a Ha) as Hf. simpl in Hf.
  rewrite Heq, String.eqb_refl in Hf. discriminate.
Qed.

Lemma get_demand_by_id_Some (db : store) (i : string) (d : DemandModel) :
  get_demand_by_id db i = Some d -> In d (demands db) /\ dem_id d = i.
Proof.
  intros H. apply find_some in H as [H1 H2]. apply String.eqb_eq in H2. auto.
Qed.

Lemma account_exists_true (db : store) (v : option string) :
  account_exists db v = true -> exists a, In a (accounts db) /\ v = Some (acc_id a).
Proof.
  destruct v as [s|]; simpl; [|discriminate].
  destruct (get_account_by_id db s) as [a|] eqn:E; [|discriminate].
  intros _. apply get_account_by_id_Some in E as [Ha <-]. eauto.
Qed.

Lemma account_exists_false (db : store) (v : option string) :
  (forall a, In a (accounts db) -> v <> Some (acc_id a)) -> account_exists db v = false.
Proof.
  intros H. destruct v as [s|]; simpl; [|reflexivity].
  rewrite get_account_by_id_None; [reflexivity|].
  intros a Ha Heq. apply (H a Ha). rewrite Heq. reflexivity.
Qed.

Lemma store_eta (db : store) : mkStore (accounts db) (demands db) = db.
Proof. destruct db; reflexivity. Qed.

(** ** C7: demand creation against a missing account *)

(** C7: for every store and every demand-create input whose [account_id]
    is the id of no account, [create_demand] raises the 404
    "Referenced account not found" and the store (its demands included)
    is the same after the call. *)
Theorem create_demand_unknown_account (db : store) (demand_data : DemandCreate)
    (user_id : string) (clock_id clock_now : datetime) :
  (forall a, In a (accounts db) -> acc_id a <> dc_account_id demand_data) ->
  create_demand db demand_data user_id clock_id clock_now
    = inl (HTTPException 404 "Referenced account not found") /\
  post db (create_demand db demand_data user_id clock_id clock_now) = db.
Proof.
  intros H. unfold create_demand. rewrite (get_account_by_id_None db _ H). split; reflexivity.
Qed.

Lemma create_demand_unknown_account_witness :
  (forall a, In a (accounts sample_db1) -> acc_id a <> "ACC-20991231000000") /\
  create_demand sample_db1 (mkDemandCreate "ACC-20991231000000" "Apollo" "Engineer" "E1"
      "Pune" None None None 100 75 "Open" None None "Jan") "system@example.com" t0 t0
    = inl (HTTPException 404 "Referenced account not found") /\
  post sample_db1 (create_demand sample_db1 (mkDemandCreate "ACC-20991231000000" "Apollo"
      "Engineer" "E1" "Pune" None None None 100 75 "Open" None None "Jan")
      "system@example.com" t0 t0) = sample_db1.
Proof.
  assert (H : forall a, In a (accounts sample_db1) -> acc_id a <> "ACC-20991231000000").
  { intros a Ha. vm_compute in Ha. destruct Ha as [<-|[]]. vm_compute. discriminate. }
  split; [exact H|].
  exact (create_demand_unknown_account sample_db1 (mkDemandCreate "ACC-20991231000000"
      "Apollo" "Engineer" "E1" "Pune" None None None 100 75 "Open" None None "Jan")
      "system@example.com" t0 t0 H).
Defined.

(** ** C6: demand update towards a missing account *)

(** C6: for every existing demand, an update whose partial input sets
    [account_id] to a value that is the id of no account (an explicit null
    included) raises the 404 "Referenced account not found"; the store is
    the same after the call, so the demand keeps every field. *)
Theorem update_demand_unknown_account (db : store) (demand_id : string)
    (demand_data : DemandUpdate) (user_id : string) (clock_now : datetime)
    (demand : DemandModel) (v : option string) :
  get_demand_by_id db demand_id = Some demand ->
  du_account_id demand_data = Some v ->
  (forall a, In a (accounts db) -> v <> Some (acc_id a)) ->
  update_demand db demand_id demand_data user_id clock_now
    = inl (HTTPException 404 "Referenced account not found") /\
  post db (update_demand db demand_id demand_data user_id clock_now) = db /\
  get_demand_by_id (post db (update_demand db demand_id demand_data user_id clock_now))
    demand_id = Some demand.
Proof.
  intros Hd Hv Hno. unfold update_demand. rewrite Hd, Hv, (account_exists_false db v Hno).
  simpl. auto.
Qed.

Lemma update_demand_unknown_account_witness :
  exists demand,
  get_demand_by_id sample_db2 "DEM-20240105090307" = Some demand /\
  update_demand sample_db2 "DEM-20240105090307"
    (mkDemandUpdate (Some (Some "ACC-X")) None None None None None None None None None
       None None (Some (Some "moved")) None) "system@example.com" t0
    = inl (HTTPException 404 "Referenced account not found") /\
  post sample_db2 (update_demand sample_db2 "DEM-20240105090307"
    (mkDemandUpdate (Some (Some "ACC-X")) None None None None None None None None None
       None None (Some (Some "moved")) None) "system@example.com" t0) = sample_db2.
Proof.
  destruct (get_demand_by_id sample_db2 "DEM-20240105090307") as [demand|] eqn:E;
    [|vm_compute in E; discriminate].
  assert (Hno : forall a, In a (accounts sample_db2) -> Some "ACC-X" <> Some (acc_id a)).
  { intros a Ha. vm_compute in Ha. destruct Ha as [<-|[]]. vm_compute. discriminate. }
  destruct (update_demand_unknown_account sample_db2 "DEM-20240105090307"
    (mkDemandUpdate (Some (Some "ACC-X")) None None None None None None None None None
       None None (Some (Some "moved")) None) "system@example.com" t0 demand (Some "ACC-X")
    E eq_refl Hno) as [H1 [H2 _]].
  exists demand. split; [reflexivity|]. split; assumption.
Defined.

(** ** C2: the deletion guard of accounts *)

Lemma filter_all_false {A} (f : A -> bool) (l : list A) :
  (forall x, In x l -> f x = false) -> List.filter f l = [].
Proof.
  induction l as [|x l IH]; intros H; simpl; [reflexivity|].
  rewrite (H x (or_introl eq_refl)). apply IH. intros y Hy. apply H. right. exact Hy.
Qed.

(** C2: [delete_account] returns [False] (no exception) and leaves the
    store unchanged when the id is absent or when a demand references the
    account; when the account exists and no demand references it, it
    returns [True], the account is no longer found by [get_account_by_id],
    the other accounts stay (in order) and the demands are unchanged. *)
Theorem delete_account_guard (db : store) (account_id : string) :
  (get_account_by_id db account_id = None ->
     delete_account db account_id = inr (false, db)) /\
  ((exists d, In d (demands db) /\ dem_account_id d = Some account_id) ->
     delete_account db account_id = inr (false, db)) /\
  (forall account, get_account_by_id db account_id = Some account ->
     (forall d, In d (demands db) -> dem_account_id d <> Some account_id) ->
     exists db', delete_account db account_id = inr (true, db') /\
       get_account_by_id db' account_id = None /\
       accounts db' = List.filter (fun a => negb (String.eqb (acc_id a) account_id))
                                  (accounts db) /\
       demands db' = demands db).
Proof.
  split; [|split].
  - intros H. unfold delete_account. rewrite H. reflexivity.
  - intros (d & Hd & Hacc). unfold delete_account.
    destruct (get_account_by_id db account_id) as [account|]; [|reflexivity].
    assert (Hin : In d (List.filter (fun d => col_eq (dem_account_id d) account_id) (demands db))).
    { apply filter_In. split; [exact Hd|]. rewrite Hacc. simpl. apply String.eqb_refl. }
    destruct (List.filter (fun d => col_eq (dem_account_id d) account_id) (demands db));
      [destruct Hin|reflexivity].
  - intros account Hget Hnone. unfold delete_account. rewrite Hget.
    apply get_account_by_id_Some in Hget as [_ Hid].
    rewrite filter_all_false.
    2:{ intros d Hd. unfold col_eq. destruct (dem_account_id d) as [s|] eqn:E; [|reflexivity].
        apply String.eqb_neq. intros ->. exact (Hnone d Hd E). }
    simpl. eexists. split; [reflexivity|]. rewrite Hid. split; [|split; reflexivity].
    apply get_account_by_id_None. simpl. intros a Ha. apply filter_In in Ha as [_ Ha].
    intros Heq. rewrite Heq, String.eqb_refl in Ha. discriminate.
Qed.

(** ** C10: cloning zero times *)

(** C10: [clone_demand] called with [count = 0] (or any [count <= 0]) on an
    existing demand raises nothing, returns the empty list and leaves the
    store unchanged: the service does not enforce the [1, 10] bound. *)
Theorem clone_demand_nonpositive (db : store) (demand_id : string) (count : Z)
    (user_id : string) (clock_now : datetime) (clock : nat -> datetime)
    (source : DemandModel) :
  get_demand_by_id db demand_id = Some source -> (count <= 0)%Z ->
  clone_demand db demand_id count user_id clock_now clock = inr ([], db).
Proof.
  intros H Hc. unfold clone_demand. rewrite H.
  replace (Z.to_nat count) with 0%nat by lia. simpl. rewrite store_eta. reflexivity.
Qed.

Lemma clone_demand_nonpositive_witness :
  exists source, get_demand_by_id sample_db2 "DEM-20240105090307" = Some source /\
  clone_demand sample_db2 "DEM-20240105090307" 0 "system@example.com" t0 (fun _ => t0)
    = inr ([], sample_db2).
Proof.
  destruct (get_demand_by_id sample_db2 "DEM-20240105090307") as [source|] eqn:E;
    [|vm_compute in E; discriminate].
  exists source. split; [reflexivity|].
  apply (clone_demand_nonpositive sample_db2 "DEM-20240105090307" 0 "system@example.com"
           t0 (fun _ => t0) source E). lia.
Defined.

(** ** C5: partial update of an account *)

Lemma setattr_written_or_kept {A} (u : option A) (old : A) :
  written_or_kept u old (setattr u old).
Proof. split; intros; subst; reflexivity. Qed.

Lemma convert_flush_date (u : option (option string)) (x : option date_attr)
    (y : option (option date)) (old : option date) :
  convert_date u = inr x -> flush_date x = inr y -> date_written_or_kept u old (setattr y old).
Proof.
  intros Hc Hf. destruct u as [[s|]|]; simpl in Hc.
  - destruct (String.eqb s "") eqn:Es.
    + injection Hc as <-. discriminate.
    + destruct (strptime s) as [d|] eqn:Ed; [|discriminate].
      injection Hc as <-. injection Hf as <-.
      split; [discriminate|]. split; [discriminate|].
      intros s' Hs'. injection Hs' as <-. exists d. split; [exact Ed|reflexivity].
  - injection Hc as <-. injection Hf as <-.
    split; [discriminate|]. split; [reflexivity|]. intros s' Hs'. discriminate.
  - injection Hc as <-. injection Hf as <-.
    split; [reflexivity|]. split; intros; discriminate.
Qed.

(** C5: for every existing account, a successful [update_account] writes
    exactly the fields set in the partial input (a date string stored
    parsed, an explicit null stored as [None]) and keeps every unset field,
    sets [last_updated_by] to the actor and [updated_on] to the current date,
    keeps [id], [added_by] and [added_on], replaces only that account's row
    and leaves the demands unchanged.  In particular, an update with only
    [comment] set always succeeds and changes nothing but [comment],
    [last_updated_by] and [updated_on]. *)
Theorem update_account_frame :
  (forall (db : store) (account_id : string) (account_data : AccountUpdate)
          (user_id : string) (clock_now : datetime) (account : AccountModel)
          (r : option AccountModel) (db' : store),
   get_account_by_id db account_id = Some account ->
   update_account db account_id account_data user_id clock_now = inr (r, db') ->
   exists account', r = Some account' /\
     acc_id account' = acc_id account /\
     written_or_kept (au_client account_data) (client account) (client account') /\
     written_or_kept (au_project account_data) (acc_project account) (acc_project account') /\
     written_or_kept (au_vertical account_data) (vertical account) (vertical account') /\
     written_or_kept (au_geo account_data) (geo account) (geo account') /\
     written_or_kept (au_start_month account_data) (acc_start_month account)
       (acc_start_month account') /\
     date_written_or_kept (au_revised_start_date account_data) (revised_start_date account)
       (revised_start_date account') /\
     date_written_or_kept (au_planned_start_date account_data) (planned_start_date account)
       (planned_start_date account') /\
     date_written_or_kept (au_planned_end_date account_data) (planned_end_date account)
       (planned_end_date account') /\
     written_or_kept (option_map probability_value (au_probability account_data))
       (acc_probability account) (acc_probability account') /\
     written_or_kept (au_opportunity_status account_data) (opportunity_status account)
       (opportunity_status account') /\
     written_or_kept (au_sow_status account_data) (sow_status account) (sow_status account') /\
     written_or_kept (au_project_status account_data) (project_status account)
       (project_status account') /\
     written_or_kept (au_client_partner account_data) (client_partner account)
       (client_partner account') /\
     written_or_kept (au_proposal_anchor account_data) (proposal_anchor account)
       (proposal_anchor account') /\
     written_or_kept (au_delivery_partner account_data) (delivery_partner account)
       (delivery_partner account') /\
     written_or_kept (au_comment account_data) (acc_comment account) (acc_comment account') /\
     acc_last_updated_by account' = user_id /\
     acc_updated_on account' = dt_date clock_now /\
     acc_added_by account' = acc_added_by account /\
     acc_added_on account' = acc_added_on account /\
     accounts db' = map (fun a => if String.eqb (acc_id a) account_id then account' else a)
                        (accounts db) /\
     demands db' = demands db) /\
  (forall (db : store) (account_id c user_id : string) (clock_now : datetime)
          (account : AccountModel),
   get_account_by_id db account_id = Some account ->
   exists db', update_account db account_id (comment_only c) user_id clock_now
     = inr (Some {|
         acc_id := acc_id account;
         client := client account;
         acc_project := acc_project account;
         vertical := vertical account;
         geo := geo account;
         acc_start_month := acc_start_month account;
         revised_start_date := revised_start_date account;
         planned_start_date := planned_start_date account;
         planned_end_date := planned_end_date account;
         acc_probability := acc_probability account;
         opportunity_status := opportunity_status account;
         sow_status := sow_status account;
         project_status := project_status account;
         client_partner := client_partner account;
         proposal_anchor := proposal_anchor account;
         delivery_partner := delivery_partner account;
         acc_comment := Some c;
         acc_last_updated_by := user_id;
         acc_updated_on := dt_date clock_now;
         acc_added_by := acc_added_by account;
         acc_added_on := acc_added_on account |}, db')).
Proof.
  split.
  - intros db account_id account_data user_id clock_now account r db' Hget Hupd.
    unfold update_account in Hupd. rewrite Hget in Hupd.
    destruct (convert_date (au_revised_start_date account_data)) as [e|rsd] eqn:E1;
      [discriminate|]; simpl in Hupd.
    destruct (convert_date (au_planned_start_date account_data)) as [e|psd] eqn:E2;
      [discriminate|]; simpl in Hupd.
    destruct (convert_date (au_planned_end_date account_data)) as [e|ped] eqn:E3;
      [discriminate|]; simpl in Hupd.
    destruct (flush_date rsd) as [e|rsd'] eqn:F1; [discriminate|]; simpl in Hupd.
    destruct (flush_date psd) as [e|psd'] eqn:F2; [discriminate|]; simpl in Hupd.
    destruct (flush_date ped) as [e|ped'] eqn:F3; [discriminate|]; simpl in Hupd.
    injection Hupd as <- <-.
    apply get_account_by_id_Some in Hget as [_ Hid].
    eexists. split; [reflexivity|]. simpl. rewrite Hid.
    repeat (split; [first [ reflexivity | apply setattr_written_or_kept
                           | eapply convert_flush_date; eassumption ]|]).
    reflexivity.
  - intros db account_id c user_id clock_now account Hget.
    unfold update_account. rewrite Hget. simpl. eexists. reflexivity.
Qed.

(** ** Successful updates, in general *)

Lemma update_account_inv (db : store) (account_id : string) (u : AccountUpdate)
    (user_id : string) (clock_now : datetime) (r : option AccountModel) (db' : store) :
  update_account db account_id u user_id clock_now = inr (r, db') ->
  (get_account_by_id db account_id = None /\ r = None /\ db' = db) \/
  exists account account',
    get_account_by_id db account_id = Some account /\ r = Some account' /\
    acc_id account' = acc_id account /\
    date_written_or_kept (au_revised_start_date u) (revised_start_date account)
      (revised_start_date account') /\
    date_written_or_kept (au_planned_start_date u) (planned_start_date account)
      (planned_start_date account') /\
    date_written_or_kept (au_planned_end_date u) (planned_end_date account)
      (planned_end_date account') /\
    accounts db' = map (fun a => if String.eqb (acc_id a) (acc_id account) then account' else a)
                       (accounts db) /\
    demands db' = demands db.
Proof.
  intros Hupd. unfold update_account in Hupd.
  destruct (get_account_by_id db account_id) as [account|] eqn:Hget.
  2:{ left. injection Hupd as <- <-. auto. }
  right.
  destruct (convert_date (au_revised_start_date u)) as [e|rsd] eqn:E1; [discriminate|];
    simpl in Hupd.
  destruct (convert_date (au_planned_start_date u)) as [e|psd] eqn:E2; [discriminate|];
    simpl in Hupd.
  destruct (convert_date (au_planned_end_date u)) as [e|ped] eqn:E3; [discriminate|];
    simpl in Hupd.
  destruct (flush_date rsd) as [e|rsd'] eqn:F1; [discriminate|]; simpl in Hupd.
  destruct (flush_date psd) as [e|psd'] eqn:F2; [discriminate|]; simpl in Hupd.
  destruct (flush_date ped) as [e|ped'] eqn:F3; [discriminate|]; simpl in Hupd.
  injection Hupd as <- <-.
  do 2 eexists. split; [reflexivity|]. split; [reflexivity|]. simpl.
  split; [reflexivity|].
  split; [eapply convert_flush_date; eassumption|].
  split; [eapply convert_flush_date; eassumption|].
  split; [eapply convert_flush_date; eassumption|].
  split; reflexivity.
Qed.

Lemma update_demand_inv (db : store) (demand_id : string) (u : DemandUpdate)
    (user_id : string) (clock_now : datetime) (r : option DemandModel) (db' : store) :
  update_demand db demand_id u user_id clock_now = inr (r, db') ->
  (get_demand_by_id db demand_id = None /\ r = None /\ db' = db) \/
  exists demand demand',
    get_demand_by_id db demand_id = Some demand /\ r = Some demand' /\
    (forall v, du_account_id u = Some v -> account_exists db v = true) /\
    dem_account_id demand' = setattr (du_account_id u) (dem_account_id demand) /\
    date_written_or_kept (du_original_start_date u) (original_start_date demand)
      (original_start_date demand') /\
    date_written_or_kept (du_allocation_end_date u) (allocation_end_date demand)
      (allocation_end_date demand') /\
    accounts db' = accounts db /\
    demands db' = map (fun d => if Z.eqb (sno d) (sno demand) then demand' else d)
                      (demands db).
Proof.
  intros Hupd. unfold update_demand in Hupd.
  destruct (get_demand_by_id db demand_id) as [demand|] eqn:Hget.
  2:{ left. injection Hupd as <- <-. auto. }
  right.
  assert (Hchk : forall v, du_account_id u = Some v -> account_exists db v = true).
  { intros v Hv. rewrite Hv in Hupd. destruct (account_exists db v); [reflexivity|].
    discriminate. }
  destruct (match du_account_id u with
            | Some v => if account_exists db v then inr tt
                        else inl (HTTPException 404 "Referenced account not found")
            | None => inr tt end) as [e|chk]; [discriminate|]; simpl in Hupd.
  destruct (convert_date (du_original_start_date u)) as [e|osd] eqn:E1; [discriminate|];
    simpl in Hupd.
  destruct (convert_date (du_allocation_end_date u)) as [e|aed] eqn:E2; [discriminate|];
    simpl in Hupd.
  destruct (flush_date osd) as [e|osd'] eqn:F1; [discriminate|]; simpl in Hupd.
  destruct (flush_date aed) as [e|aed'] eqn:F2; [discriminate|]; simpl in Hupd.
  injection Hupd as <- <-.
  do 2 eexists. split; [reflexivity|]. split; [reflexivity|]. simpl.
  split; [exact Hchk|]. split; [reflexivity|].
  split; [eapply convert_flush_date; eassumption|].
  split; [eapply convert_flush_date; eassumption|].
  split; reflexivity.
Qed.

(** ** C9: explicit null versus unset date fields *)

(** C9: in a successful partial update of an existing account or demand, a
    date field set to an explicit null is written and clears the column to
    [None], while an unset date field keeps its value; an update setting
    only the date fields to null always succeeds and clears them. *)
Theorem update_null_date_clears :
  (forall (db : store) (account_id : string) (u : AccountUpdate) (user_id : string)
          (clock_now : datetime) (account account' : AccountModel) (db' : store),
   get_account_by_id db account_id = Some account ->
   update_account db account_id u user_id clock_now = inr (Some account', db') ->
   (au_revised_start_date u = Some None -> revised_start_date account' = None) /\
   (au_revised_start_date u = None ->
      revised_start_date account' = revised_start_date account) /\
   (au_planned_start_date u = Some None -> planned_start_date account' = None) /\
   (au_planned_start_date u = None ->
      planned_start_date account' = planned_start_date account) /\
   (au_planned_end_date u = Some None -> planned_end_date account' = None) /\
   (au_planned_end_date u = None -> planned_end_date account' = planned_end_date account)) /\
  (forall (db : store) (demand_id : string) (u : DemandUpdate) (user_id : string)
          (clock_now : datetime) (demand demand' : DemandModel) (db' : store),
   get_demand_by_id db demand_id = Some demand ->
   update_demand db demand_id u user_id clock_now = inr (Some demand', db') ->
   (du_original_start_date u = Some None -> original_start_date demand' = None) /\
   (du_original_start_date u = None ->
      original_start_date demand' = original_start_date demand) /\
   (du_allocation_end_date u = Some None -> allocation_end_date demand' = None) /\
   (du_allocation_end_date u = None ->
      allocation_end_date demand' = allocation_end_date demand)) /\
  (forall (db : store) (account_id user_id : string) (clock_now : datetime)
          (account : AccountModel),
   get_account_by_id db account_id = Some account ->
   exists account' db',
     update_account db account_id null_account_dates user_id clock_now
       = inr (Some account', db') /\
     revised_start_date account' = None /\ planned_start_date account' = None /\
     planned_end_date account' = None) /\
  (forall (db : store) (demand_id user_id : string) (clock_now : datetime)
          (demand : DemandModel),
   get_demand_by_id db demand_id = Some demand ->
   exists demand' db',
     update_demand db demand_id null_demand_dates user_id clock_now
       = inr (Some demand', db') /\
     original_start_date demand' = None /\ allocation_end_date demand' = None).
Proof.
  split; [|split; [|split]].
  - intros db account_id u user_id clock_now account account' db' Hget Hupd.
    destruct (update_account_inv _ _ _ _ _ _ _ Hupd)
      as [[Hn _]|(acc & acc' & Hg & Hr & _ & [R1 [R2 _]] & [P1 [P2 _]] & [Q1 [Q2 _]] & _)].
    + rewrite Hget in Hn. discriminate.
    + rewrite Hget in Hg. injection Hg as <-. injection Hr as <-. tauto.
  - intros db demand_id u user_id clock_now demand demand' db' Hget Hupd.
    destruct (update_demand_inv _ _ _ _ _ _ _ Hupd)
      as [[Hn _]|(dem & dem' & Hg & Hr & _ & _ & [R1 [R2 _]] & [P1 [P2 _]] & _)].
    + rewrite Hget in Hn. discriminate.
    + rewrite Hget in Hg. injection Hg as <-. injection Hr as <-. tauto.
  - intros db account_id user_id clock_now account Hget.
    unfold update_account. rewrite Hget. simpl. do 2 eexists. split; [reflexivity|]. auto.
  - intros db demand_id user_id clock_now demand Hget.
    unfold update_demand. rewrite Hget. simpl. do 2 eexists. split; [reflexivity|]. auto.
Qed.

(** ** Inserts *)

Local Open Scope list_scope.

Lemma insert_demand_ok (ds : list DemandModel) (d d' : DemandModel)
    (ds' : list DemandModel) :
  insert_demand ds d = inr (d', ds') -> d' = with_sno (next_sno ds) d /\ ds' = ds ++ [d'].
Proof.
  unfold insert_demand. destruct (existsb _ ds); [discriminate|].
  intros H. injection H as <- <-. auto.
Qed.

Lemma insert_demands_ok (news ds ins ds' : list DemandModel) :
  insert_demands ds news = inr (ins, ds') ->
  ds' = ds ++ ins /\ Forall2 (fun c c' => c' = with_sno (sno c') c) news ins.
Proof.
  revert ds ins ds'. induction news as [|c news IH]; intros ds ins ds' H; simpl in H.
  - injection H as <- <-. rewrite app_nil_r. auto.
  - destruct (insert_demand ds c) as [e|[c' ds1]] eqn:E1; [discriminate|]. simpl in H.
    destruct (insert_demands ds1 news) as [e|[ins1 ds2]] eqn:E2; [discriminate|].
    simpl in H. injection H as <- <-.
    apply insert_demand_ok in E1 as [Hc' ->].
    destruct (IH _ _ _ E2) as [-> HF]. split.
    + rewrite <- app_assoc. reflexivity.
    + constructor; [|exact HF]. subst c'. reflexivity.
Qed.

(** ** C1: referential integrity *)

Lemma Forall2_in_right {A B} (R : A -> B -> Prop) (l1 : list A) (l2 : list B) (y : B) :
  Forall2 R l1 l2 -> In y l2 -> exists x, In x l1 /\ R x y.
Proof.
  induction 1 as [|x y' l1 l2 Hxy _ IH]; simpl; [tauto|].
  intros [<-|Hy]; [eauto|]. destruct (IH Hy) as (x0 & ? & ?). eauto.
Qed.

Lemma refint_intro (db : store) :
  (forall d, In d (demands db) -> exists a, In a (accounts db) /\ dem_account_id d = Some (acc_id a)) ->
  refint db.
Proof. intros H. apply List.Forall_forall. exact H. Qed.

Lemma refint_elim (db : store) (d : DemandModel) :
  refint db -> In d (demands db) -> exists a, In a (accounts db) /\ dem_account_id d = Some (acc_id a).
Proof. intros H Hd. exact (proj1 (List.Forall_forall _ _) H d Hd). Qed.

(** Same demands, and every account id still present. *)
Lemma refint_accounts_kept (db db' : store) :
  demands db' = demands db ->
  (forall a, In a (accounts db) -> exists a', In a' (accounts db') /\ acc_id a' = acc_id a) ->
  refint db -> refint db'.
Proof.
  intros Hd Ha Hr. apply refint_intro. intros d Hin. rewrite Hd in Hin.
  destruct (refint_elim _ _ Hr Hin) as (a & Hain & Href).
  destruct (Ha a Hain) as (a' & Ha' & Hid). exists a'. rewrite Hid. auto.
Qed.

Lemma refint_create_account (db : store) (data : AccountCreate) (user_id : string)
    (clock_id clock_now : datetime) :
  refint db -> refint (post db (create_account db data user_id clock_id clock_now)).
Proof.
  intros Hr. unfold create_account.
  destruct (create_date (ac_revised_start_date data)); [exact Hr|]. simpl.
  destruct (create_date (ac_planned_start_date data)); [exact Hr|]. simpl.
  destruct (create_date (ac_planned_end_date data)); [exact Hr|]. simpl.
  unfold insert_account. destruct (existsb _ _); [exact Hr|]. simpl.
  apply (refint_accounts_kept db); [reflexivity| |exact Hr].
  intros a Ha. exists a. split; [apply in_or_app; left; exact Ha|reflexivity].
Qed.

Lemma refint_update_account (db : store) (account_id : string) (u : AccountUpdate)
    (user_id : string) (clock_now : datetime) :
  refint db -> refint (post db (update_account db account_id u user_id clock_now)).
Proof.
  intros Hr. destruct (update_account db account_id u user_id clock_now)
    as [e|[r db']] eqn:E; [exact Hr|]. simpl.
  destruct (update_account_inv _ _ _ _ _ _ _ E)
    as [[_ [_ ->]]|(account & account' & _ & _ & Hid & _ & _ & _ & Hacc & Hdem)];
    [exact Hr|].
  apply (refint_accounts_kept db); [exact Hdem| |exact Hr].
  intros a Ha. rewrite Hacc.
  exists (if String.eqb (acc_id a) (acc_id account) then account' else a). split.
  - apply (in_map (fun a => if String.eqb (acc_id a) (acc_id account) then account' else a)).
    exact Ha.
  - destruct (String.eqb (acc_id a) (acc_id account)) eqn:Eq; [|reflexivity].
    apply String.eqb_eq in Eq. rewrite Hid, Eq. reflexivity.
Qed.

Lemma refint_delete_account (db : store) (account_id : string) :
  refint db -> refint (post db (delete_account db account_id)).
Proof.
  intros Hr. unfold delete_account.
  destruct (get_account_by_id db account_id) as [account|] eqn:Hget; [|exact Hr].
  destruct (0 <? length (List.filter (fun d => col_eq (dem_account_id d) account_id)
                                     (demands db)))%nat eqn:Hn; [exact Hr|]. simpl.
  apply get_account_by_id_Some in Hget as [_ Hid].
  apply refint_intro. simpl. intros d Hd.
  destruct (refint_elim _ _ Hr Hd) as (a & Ha & Href). exists a. split; [|exact Href].
  apply filter_In. split; [exact Ha|].
  destruct (String.eqb (acc_id a) (acc_id account)) eqn:Eq; [|reflexivity].
  exfalso. apply String.eqb_eq in Eq.
  assert (Hin : In d (List.filter (fun d => col_eq (dem_account_id d) account_id) (demands db))).
  { apply filter_In. split; [exact Hd|]. rewrite Href. simpl. rewrite Eq, Hid.
    apply String.eqb_refl. }
  destruct (List.filter (fun d => col_eq (dem_account_id d) account_id) (demands db));
    [destruct Hin|discriminate].
Qed.

Lemma refint_create_demand (db : store) (data : DemandCreate) (user_id : string)
    (clock_id clock_now : datetime) :
  refint db -> refint (post db (create_demand db data user_id clock_id clock_now)).
Proof.
  intros Hr. unfold create_demand.
  destruct (get_account_by_id db (dc_account_id data)) as [acc|] eqn:Hget; [|exact Hr].
  destruct (create_date (dc_original_start_date data)); [exact Hr|]. simpl.
  destruct (create_date (dc_allocation_end_date data)); [exact Hr|]. simpl.
  match goal with |- context [insert_demand (demands db) ?d] =>
    destruct (insert_demand (demands db) d) as [e|[d' ds']] eqn:Ins end; [exact Hr|].
  simpl. apply insert_demand_ok in Ins as [Hd' ->].
  apply get_account_by_id_Some in Hget as [Hacc Hid].
  apply refint_intro. simpl. intros d Hd. apply in_app_or in Hd as [Hd|[<-|[]]].
  - exact (refint_elim _ _ Hr Hd).
  - exists acc. split; [exact Hacc|]. rewrite Hd'. simpl. rewrite Hid. reflexivity.
Qed.

Lemma refint_update_demand (db : store) (demand_id : string) (u : DemandUpdate)
    (user_id : string) (clock_now : datetime) :
  refint db -> refint (post db (update_demand db demand_id u user_id clock_now)).
Proof.
  intros Hr. destruct (update_demand db demand_id u user_id clock_now)
    as [e|[r db']] eqn:E; [exact Hr|]. simpl.
  destruct (update_demand_inv _ _ _ _ _ _ _ E)
    as [[_ [_ ->]]|(demand & demand' & Hget & _ & Hchk & Hacc' & _ & _ & Hacc & Hdem)];
    [exact Hr|].
  apply get_demand_by_id_Some in Hget as [Hdin _].
  apply refint_intro. rewrite Hacc, Hdem. intros d Hd.
  apply in_map_iff in Hd as (d0 & <- & Hd0).
  destruct (Z.eqb (sno d0) (sno demand)); [|exact (refint_elim _ _ Hr Hd0)].
  rewrite Hacc'. destruct (du_account_id u) as [v|] eqn:Hv; simpl.
  - destruct (account_exists_true db v (Hchk v eq_refl)) as (a & Ha & ->). eauto.
  - exact (refint_elim _ _ Hr Hdin).
Qed.

Lemma refint_delete_demand (db : store) (demand_id : string) :
  refint db -> refint (post db (delete_demand db demand_id)).
Proof.
  intros Hr. unfold delete_demand.
  destruct (get_demand_by_id db demand_id) as [demand|]; [|exact Hr]. simpl.
  apply refint_intro. simpl. intros d Hd. apply filter_In in Hd as [Hd _].
  exact (refint_elim _ _ Hr Hd).
Qed.

Lemma refint_clone_demand (db : store) (demand_id : string) (count : Z) (user_id : string)
    (clock_now : datetime) (clock : nat -> datetime) :
  refint db -> refint (post db (clone_demand db demand_id count user_id clock_now clock)).
Proof.
  intros Hr. unfold clone_demand.
  destruct (get_demand_by_id db demand_id) as [source|] eqn:Hget; [|exact Hr].
  match goal with |- context [insert_demands (demands db) ?l] =>
    destruct (insert_demands (demands db) l) as [e|[ins ds']] eqn:Ins end; [exact Hr|].
  simpl. apply insert_demands_ok in Ins as [-> HF].
  apply get_demand_by_id_Some in Hget as [Hsrc _].
  destruct (refint_elim _ _ Hr Hsrc) as (a & Ha & Hsrc_ref).
  apply refint_intro. simpl. intros d Hd. apply in_app_or in Hd as [Hd|Hd].
  - exact (refint_elim _ _ Hr Hd).
  - exists a. split; [exact Ha|].
    apply (Forall2_in_right _ _ _ _ HF) in Hd as (c & Hc & ->).
    apply in_map_iff in Hc as (i & <- & _). simpl. exact Hsrc_ref.
Qed.

Lemma refint_exec (db : store) (o : op) : refint db -> refint (exec db o).
Proof.
  destruct o; simpl.
  - apply refint_create_account.
  - apply refint_update_account.
  - apply refint_delete_account.
  - apply refint_create_demand.
  - apply refint_update_demand.
  - apply refint_delete_demand.
  - apply refint_clone_demand.
Qed.

(** C1: every store reachable from the empty database by the service
    operations (account create, update, delete; demand create, update,
    delete, clone) satisfies referential integrity: every demand's
    [account_id] is the id of an existing account; and every operation
    preserves it from any store that satisfies it. *)
Theorem referential_integrity :
  (forall (db : store) (o : op), refint db -> refint (exec db o)) /\
  (forall db : store, reachable db -> refint db).
Proof.
  split; [exact refint_exec|].
  intros db Hreach. induction Hreach as [|db o _ IH].
  - unfold refint. simpl. constructor.
  - apply refint_exec. exact IH.
Qed.

(** ** C4: account creation, ids and audit fields *)

Lemma existsb_false_forall {A} (f : A -> bool) (l : list A) :
  existsb f l = false -> forall x, In x l -> f x = false.
Proof.
  intros H x Hx. destruct (f x) eqn:E; [|reflexivity].
  assert (existsb f l = true) as Ht by (apply existsb_exists; eauto).
  congruence.
Qed.

Lemma create_date_err (v : option string) (e : exn) : create_date v = inl e -> e = ValueError.
Proof.
  unfold create_date. destruct v as [s|]; [|discriminate].
  destruct (String.eqb s ""); [discriminate|].
  destruct (strptime s); [discriminate|]. intros H. injection H as <-. reflexivity.
Qed.

(** [create_account] generates the id ["ACC-" ++
    strftime('%Y%m%d%H%M%S')] of its clock reading.  When it succeeds, the
    returned record has that non-empty id, distinct from the id of every
    account already stored, it is appended to the table, and
    [added_on = updated_on =] the current date and
    [added_by = last_updated_by =] the actor.  When an account with that id
    already exists (e.g. one created within the same second), the creation
    raises, with [IntegrityError] at the insert or, before it, with the
    [ValueError] of a malformed date, and stores nothing; with a fresh id
    and well-formed dates it succeeds. *)
Theorem create_account_id_audit (db : store) (account_data : AccountCreate)
    (user_id : string) (clock_id clock_now : datetime) :
  (forall account db',
     create_account db account_data user_id clock_id clock_now = inr (account, db') ->
     acc_id account = "ACC-" +:+ strftime_ts clock_id /\ acc_id account <> "" /\
     (forall a, In a (accounts db) -> acc_id a <> acc_id account) /\
     accounts db' = accounts db ++ [account] /\ demands db' = demands db /\
     acc_added_on account = dt_date clock_now /\ acc_updated_on account = dt_date clock_now /\
     acc_added_by account = user_id /\ acc_last_updated_by account = user_id) /\
  ((exists a, In a (accounts db) /\ acc_id a = "ACC-" +:+ strftime_ts clock_id) ->
     exists e, create_account db account_data user_id clock_id clock_now = inl e /\
               (e = IntegrityError \/ e = ValueError)) /\
  ((forall a, In a (accounts db) -> acc_id a <> "ACC-" +:+ strftime_ts clock_id) ->
   (exists r, create_date (ac_revised_start_date account_data) = inr r) ->
   (exists r, create_date (ac_planned_start_date account_data) = inr r) ->
   (exists r, create_date (ac_planned_end_date account_data) = inr r) ->
   exists account db', create_account db account_data user_id clock_id clock_now
                         = inr (account, db')).
Proof.
  split; [|split].
  - intros account db' H. unfold create_account in H.
    destruct (create_date (ac_revised_start_date account_data)); [discriminate|]. simpl in H.
    destruct (create_date (ac_planned_start_date account_data)); [discriminate|]. simpl in H.
    destruct (create_date (ac_planned_end_date account_data)); [discriminate|]. simpl in H.
    unfold insert_account in H. simpl in H.
    destruct (existsb _ (accounts db)) eqn:Ex; [discriminate|].
    injection H as <- <-. simpl.
    split; [reflexivity|]. split; [discriminate|]. split.
    + intros a Ha Heq. pose proof (existsb_false_forall _ _ Ex a Ha) as Hf. simpl in Hf.
      rewrite Heq, String.eqb_refl in Hf. discriminate.
    + repeat split.
  - intros (a & Ha & Hid). unfold create_account.
    destruct (create_date (ac_revised_start_date account_data)) as [e|] eqn:E1;
      [exists e; split; [reflexivity|right; exact (create_date_err _ _ E1)]|]. simpl.
    destruct (create_date (ac_planned_start_date account_data)) as [e|] eqn:E2;
      [exists e; split; [reflexivity|right; exact (create_date_err _ _ E2)]|]. simpl.
    destruct (create_date (ac_planned_end_date account_data)) as [e|] eqn:E3;
      [exists e; split; [reflexivity|right; exact (create_date_err _ _ E3)]|]. simpl.
    unfold insert_account. simpl.
    replace (existsb _ (accounts db)) with true; [eexists; split; [reflexivity|left; reflexivity]|].
    symmetry. apply existsb_exists. exists a. split; [exact Ha|]. rewrite Hid.
    apply String.eqb_refl.
  - intros Hfresh [r1 E1] [r2 E2] [r3 E3]. unfold create_account.
    rewrite E1, E2, E3. simpl. unfold insert_account. simpl.
    replace (existsb _ (accounts db)) with false; [eauto|].
    symmetry. apply Bool.not_true_iff_false. intros Ht. apply existsb_exists in Ht as (a & Ha & Heq).
    apply String.eqb_eq in Heq. exact (Hfresh a Ha Heq).
Qed.

(** C4 counterexample: a second creation within the same second as an
    existing account generates the same id ["ACC-20240105090307"]; the
    creation returns no record but raises [IntegrityError]. *)
Lemma create_account_same_second_counterexample :
  (exists a, In a (accounts sample_db1) /\ acc_id a = "ACC-" +:+ strftime_ts t0) /\
  create_account sample_db1 sample_account_create "system@example.com" t0 t0
    = inl IntegrityError /\
  ~ (exists account db', create_account sample_db1 sample_account_create "system@example.com"
                           t0 t0 = inr (account, db')).
Proof.
  split; [|split].
  - eexists. split; [left; reflexivity|]. vm_compute. reflexivity.
  - vm_compute. reflexivity.
  - intros (account & db' & H). vm_compute in H. discriminate.
Qed.

(** ** Clone ids *)

Lemma append_cons (c : ascii) (s t : string) : String c s +:+ t = String c (s +:+ t).
Proof. reflexivity. Qed.

Lemma append_nil (t : string) : "" +:+ t = t.
Proof. reflexivity. Qed.

Lemma all_digits_app (a b : string) :
  all_digits (a +:+ b) = all_digits a && all_digits b.
Proof.
  induction a as [|c a IH]; simpl; [reflexivity|]. rewrite IH. apply andb_assoc.
Qed.

Lemma is_digit_pretty_N_char (x : N) : is_digit (pretty_N_char x) = true.
Proof. unfold pretty_N_char. repeat case_match; reflexivity. Qed.

Lemma all_digits_pretty_N_go (x : N) (s : string) :
  all_digits s = true -> all_digits (pretty_N_go x s) = true.
Proof.
  revert s. induction (N.lt_wf_0 x) as [x _ IH]; intros s Hs.
  destruct (decide (x = 0)%N) as [->|Hx]; [rewrite pretty_N_go_0; exact Hs|].
  rewrite pretty_N_go_step by lia. apply IH; [apply N.div_lt; lia|].
  simpl. rewrite is_digit_pretty_N_char, Hs. reflexivity.
Qed.

Lemma all_digits_pretty_N (x : N) : all_digits (pretty x) = true.
Proof.
  unfold pretty, pretty_N. case_decide; [reflexivity|].
  apply all_digits_pretty_N_go. reflexivity.
Qed.

Lemma all_digits_zeros (k : nat) : all_digits (String.concat "" (repeat "0" k)) = true.
Proof.
  induction k as [|[|k] IH]; simpl; [reflexivity|reflexivity|].
  simpl in IH. exact IH.
Qed.

Lemma all_digits_fmt_num (w : nat) (z : Z) : all_digits (fmt_num w z) = true.
Proof.
  unfold fmt_num, pad. rewrite all_digits_app, all_digits_zeros, all_digits_pretty_N.
  reflexivity.
Qed.

Lemma all_digits_strftime_ts (t : datetime) : all_digits (strftime_ts t) = true.
Proof.
  unfold strftime_ts. cbn [String.concat String.append].
  rewrite !all_digits_app, !all_digits_fmt_num. reflexivity.
Qed.

Lemma append_dash_inj (a b x y : string) :
  all_digits a = true -> all_digits b = true ->
  a +:+ String "-" x = b +:+ String "-" y -> a = b /\ x = y.
Proof.
  revert b. induction a as [|c a IH]; intros [|c' b] Ha Hb H; simpl in *.
  - injection H as <-. auto.
  - injection H as <- _. discriminate.
  - injection H as -> _. discriminate.
  - injection H as <- H. apply andb_prop in Ha as [_ Ha]. apply andb_prop in Hb as [_ Hb].
    destruct (IH b Ha Hb H) as [-> ->]. auto.
Qed.

(** Two generated clone ids are equal only for the same index [i]. *)
Lemma clone_id_inj (t1 t2 : datetime) (i j : nat) :
  clone_id t1 i = clone_id t2 j -> i = j.
Proof.
  unfold clone_id. rewrite !append_cons, !append_nil. intros H.
  repeat match type of H with String _ _ = String _ _ => injection H as H end.
  apply append_dash_inj in H as [_ H]; [|apply all_digits_strftime_ts..].
  exact (pretty_nat_inj _ _ H).
Qed.

(** ** Batch inserts *)

Lemma insert_demands_fresh (news ds : list DemandModel) :
  NoDup (map dem_id news) ->
  (forall c e, In c news -> In e ds -> dem_id e <> dem_id c) ->
  exists ins ds', insert_demands ds news = inr (ins, ds').
Proof.
  revert ds. induction news as [|c news IH]; intros ds Hnd Hfresh; simpl; [eauto|].
  inversion Hnd as [|? ? Hnotin Hnd']; subst.
  unfold insert_demand.
  replace (existsb _ ds) with false.
  2:{ symmetry. apply Bool.not_true_iff_false. intros Ht.
      apply existsb_exists in Ht as (e & He & Heq). apply String.eqb_eq in Heq.
      exact (Hfresh c e (or_introl eq_refl) He Heq). }
  simpl. destruct (IH (ds ++ [with_sno (next_sno ds) c])) as (ins & ds' & ->); [exact Hnd'| |].
  - intros c2 e Hc2 He. apply in_app_or in He as [He|[<-|[]]].
    + apply Hfresh; [right; exact Hc2|exact He].
    + simpl. intros Heq. apply Hnotin. apply list_elem_of_In. rewrite Heq. apply in_map. exact Hc2.
  - simpl. eauto.
Qed.

Lemma insert_demands_clash (news ds : list DemandModel) :
  (exists c e, In c news /\ In e ds /\ dem_id e = dem_id c) ->
  insert_demands ds news = inl IntegrityError.
Proof.
  revert ds. induction news as [|c news IH]; intros ds (c0 & e & Hc & He & Heq); simpl.
  - destruct Hc.
  - unfold insert_demand.
    destruct (existsb (fun e => String.eqb (dem_id e) (dem_id c)) ds) eqn:Ex;
      [reflexivity|]. simpl.
    destruct Hc as [<-|Hc].
    + pose proof (existsb_false_forall _ _ Ex e He) as Hf. simpl in Hf.
      rewrite Heq, String.eqb_refl in Hf. discriminate.
    + rewrite IH; [reflexivity|]. exists c0, e. split; [exact Hc|].
      split; [apply in_or_app; left; exact He|exact Heq].
Qed.

Lemma Forall2_nth_error_r {A B} (R : A -> B -> Prop) (l1 : list A) (l2 : list B)
    (i : nat) (y : B) :
  Forall2 R l1 l2 -> nth_error l2 i = Some y -> exists x, nth_error l1 i = Some x /\ R x y.
Proof.
  intros HF. revert i. induction HF as [|x y' l1 l2 Hxy _ IH]; intros [|i] Hi; simpl in *.
  - discriminate.
  - discriminate.
  - injection Hi as <-. eauto.
  - apply IH. exact Hi.
Qed.

Lemma nth_error_seq_inv (s n i x : nat) :
  nth_error (seq s n) i = Some x -> x = (s + i)%nat /\ (i < n)%nat.
Proof.
  revert s i. induction n as [|n IH]; intros s [|i] H; simpl in H; try discriminate.
  - injection H as <-. lia.
  - apply IH in H as [-> Hi]. lia.
Qed.

Lemma map_dem_id_with_sno (news ins : list DemandModel) :
  Forall2 (fun c c' => c' = with_sno (sno c') c) news ins -> map dem_id ins = map dem_id news.
Proof.
  induction 1 as [|c c' news ins Hc _ IH]; simpl; [reflexivity|].
  rewrite IH, Hc. reflexivity.
Qed.

Lemma find_app_l {A} (f : A -> bool) (l1 l2 : list A) (x : A) :
  List.find f l1 = Some x -> List.find f (l1 ++ l2) = Some x.
Proof.
  induction l1 as [|y l1 IH]; simpl; [discriminate|].
  destruct (f y); [tauto|exact IH].
Qed.

Lemma NoDup_map_inj {A B} (f : A -> B) (l : list A) :
  (forall x y, f x = f y -> x = y) -> NoDup l -> NoDup (map f l).
Proof.
  intros Hf Hnd. induction Hnd as [|x l Hx Hnd IH]; simpl; constructor; [|exact IH].
  intros Hin. apply list_elem_of_In, in_map_iff in Hin as (y & Hy & Hy').
  apply Hf in Hy. subst y. apply Hx, list_elem_of_In, Hy'.
Qed.

(** ** C3: cloning a demand *)

(** For an existing source demand and any [count] (in
    particular one in [1, 10]), when none of the generated ids
    ["DEM-CLONE-" ++ timestamp ++ "-" ++ str(i)] ([i < count]) is already a
    demand id, [clone_demand] appends exactly [count] new rows to the
    demands table and returns them in creation order: their ids are
    pairwise distinct, the [i]-th one carries index [i], every business
    field equals the source's, [last_updated_by = added_by =] the actor,
    [updated_on = added_on =] the current date, and the source row is
    still found unchanged.  When one generated id is already a demand id
    (a clone of the same index made within the same second), the whole
    batch fails with [IntegrityError] and nothing is stored. *)
Theorem clone_demand_batch (db : store) (demand_id : string) (count : Z)
    (user_id : string) (clock_now : datetime) (clock : nat -> datetime)
    (source : DemandModel) :
  get_demand_by_id db demand_id = Some source ->
  ((forall (i : nat) (e : DemandModel), (i < Z.to_nat count)%nat -> In e (demands db) ->
      dem_id e <> clone_id (clock i) i) ->
   exists clones,
     clone_demand db demand_id count user_id clock_now clock
       = inr (clones, mkStore (accounts db) (demands db ++ clones)) /\
     length clones = Z.to_nat count /\
     NoDup (map dem_id clones) /\
     get_demand_by_id (mkStore (accounts db) (demands db ++ clones)) demand_id = Some source /\
     (forall (i : nat) (c : DemandModel), nth_error clones i = Some c ->
        dem_id c = clone_id (clock i) i /\
        dem_account_id c = dem_account_id source /\
        dem_project c = dem_project source /\ role c = role source /\
        role_code c = role_code source /\ location c = location source /\
        revised c = revised source /\
        original_start_date c = original_start_date source /\
        allocation_end_date c = allocation_end_date source /\
        allocation_percentage c = allocation_percentage source /\
        dem_probability c = dem_probability source /\ status c = status source /\
        resource_mapped c = resource_mapped source /\ dem_comment c = dem_comment source /\
        dem_start_month c = dem_start_month source /\
        dem_last_updated_by c = user_id /\ dem_added_by c = user_id /\
        dem_updated_on c = dt_date clock_now /\ dem_added_on c = dt_date clock_now)) /\
  ((exists (i : nat) (e : DemandModel), (i < Z.to_nat count)%nat /\ In e (demands db) /\
      dem_id e = clone_id (clock i) i) ->
   clone_demand db demand_id count user_id clock_now clock = inl IntegrityError).
Proof.
  intros Hget.
  set (news := map (fun i => make_clone source (clone_id (clock i) i) user_id (dt_date clock_now))
                   (seq 0 (Z.to_nat count))).
  assert (Hcl : clone_demand db demand_id count user_id clock_now clock
                = bind_exn (insert_demands (demands db) news)
                           (fun r => inr (fst r, mkStore (accounts db) (snd r)))).
  { unfold clone_demand. rewrite Hget. reflexivity. }
  assert (Hids : map dem_id news = map (fun i => clone_id (clock i) i) (seq 0 (Z.to_nat count))).
  { unfold news. rewrite map_map. reflexivity. }
  assert (Hnd : NoDup (map dem_id news)).
  { rewrite Hids. apply NoDup_map_inj; [|apply NoDup_seq].
    intros x y Hxy. exact (clone_id_inj _ _ _ _ Hxy). }
  split.
  - intros Hfresh.
    destruct (insert_demands_fresh news (demands db)) as (ins & ds' & Hins); [exact Hnd| |].
    { intros c e Hc He. unfold news in Hc. apply in_map_iff in Hc as (i & <- & Hi).
      apply in_seq in Hi. simpl. apply Hfresh; [lia|exact He]. }
    destruct (insert_demands_ok _ _ _ _ Hins) as [-> HF].
    exists ins. rewrite Hcl, Hins. split; [reflexivity|]. split.
    { rewrite <- (Forall2_length _ _ _ HF). unfold news. rewrite length_map, length_seq.
      reflexivity. }
    split; [rewrite (map_dem_id_with_sno _ _ HF); exact Hnd|].
    split; [unfold get_demand_by_id; simpl; apply find_app_l; exact Hget|].
    intros i c Hc. destruct (Forall2_nth_error_r _ _ _ _ _ HF Hc) as (c0 & Hc0 & ->).
    unfold news in Hc0. rewrite nth_error_map in Hc0.
    destruct (nth_error (seq 0 (Z.to_nat count)) i) as [k|] eqn:Es; [|discriminate].
    simpl in Hc0. injection Hc0 as <-. apply nth_error_seq_inv in Es as [-> _].
    simpl. repeat split.
  - intros (i & e & Hi & He & Heq). rewrite Hcl, insert_demands_clash; [reflexivity|].
    exists (make_clone source (clone_id (clock i) i) user_id (dt_date clock_now)), e.
    split; [|split; [exact He|exact Heq]].
    unfold news. apply (in_map (fun i => make_clone source (clone_id (clock i) i) user_id
                                          (dt_date clock_now))).
    apply in_seq. lia.
Qed.

Lemma clone_demand_batch_witness :
  exists source clones,
    get_demand_by_id sample_db2 "DEM-20240105090307" = Some source /\
    clone_demand sample_db2 "DEM-20240105090307" 2 "system@example.com" t0 (fun _ => t0)
      = inr (clones, mkStore (accounts sample_db2) (demands sample_db2 ++ clones)) /\
    length clones = 2%nat.
Proof.
  destruct (get_demand_by_id sample_db2 "DEM-20240105090307") as [source|] eqn:E;
    [|vm_compute in E; discriminate].
  assert (Hfresh : forall (i : nat) (e : DemandModel), (i < Z.to_nat 2)%nat ->
            In e (demands sample_db2) -> dem_id e <> clone_id ((fun _ => t0) i) i).
  { intros i e Hi He. vm_compute in He. destruct He as [<-|[]].
    destruct i as [|[|i]]; [| |simpl in Hi; lia]; intros Heq; vm_compute in Heq; discriminate. }
  destruct (proj1 (clone_demand_batch sample_db2 "DEM-20240105090307" 2 "system@example.com"
                     t0 (fun _ => t0) source E) Hfresh) as (clones & H1 & H2 & _).
  exists source, clones. split; [reflexivity|]. split; [exact H1|exact H2].
Defined.

(** C3 counterexample: the source demand [sample_clone_row] is itself the
    clone of index 0 made at [t0]; cloning it twice at [t0] generates the id
    ["DEM-CLONE-20240105090307-0"] again, and no clone is produced: the call
    raises [IntegrityError]. *)
Lemma clone_demand_same_second_counterexample :
  get_demand_by_id sample_db3 "DEM-CLONE-20240105090307-0" = Some sample_clone_row /\
  clone_demand sample_db3 "DEM-CLONE-20240105090307-0" 2 "system@example.com" t0 (fun _ => t0)
    = inl IntegrityError /\
  ~ (exists clones db', clone_demand sample_db3 "DEM-CLONE-20240105090307-0" 2
                          "system@example.com" t0 (fun _ => t0) = inr (clones, db')).
Proof.
  split; [reflexivity|]. split; [vm_compute; reflexivity|].
  intros (clones & db' & H). vm_compute in H. discriminate.
Qed.

(** ** C8: search *)





























(* ================================================================== *)
(** * Further properties of the code *)

(** ** Keys of the tables in reachable stores *)

Lemma ss_app_one {A} (R : A -> A -> Prop) (l : list A) (x : A) :
  StronglySorted R l -> (forall y, In y l -> R y x) -> StronglySorted R (l ++ [x]).
Proof.
  induction l as [|y l IH]; intros Hs Hx; simpl.
  - repeat constructor.
  - apply StronglySorted_inv in Hs as [Hs Hy]. constructor.
    + apply IH; [exact Hs|]. intros z Hz. apply Hx. right. exact Hz.
    + apply List.Forall_app. split; [exact Hy|].
      constructor; [apply Hx; left; reflexivity|constructor].
Qed.

Lemma ss_filter {A} (R : A -> A -> Prop) (f : A -> bool) (l : list A) :
  StronglySorted R l -> StronglySorted R (List.filter f l).
Proof.
  induction l as [|x l IH]; simpl; intros Hs; [constructor|].
  apply StronglySorted_inv in Hs as [Hs Hx].
  destruct (f x); [|auto]. constructor; [auto|].
  apply List.Forall_forall. intros z Hz. apply filter_In in Hz as [Hz _].
  exact (proj1 (List.Forall_forall _ _) Hx z Hz).
Qed.

Lemma ss_map {A} (R : A -> A -> Prop) (f : A -> A) (l : list A) :
  (forall x y, In x l -> In y l -> R x y -> R (f x) (f y)) ->
  StronglySorted R l -> StronglySorted R (map f l).
Proof.
  induction l as [|x l IH]; simpl; intros Hf Hs; [constructor|].
  apply StronglySorted_inv in Hs as [Hs Hx]. constructor.
  - apply IH; [|exact Hs]. intros y z Hy Hz. apply Hf; right; assumption.
  - apply List.Forall_forall. intros z Hz. apply in_map_iff in Hz as (y & <- & Hy).
    apply Hf; [left; reflexivity|right; exact Hy|].
    exact (proj1 (List.Forall_forall _ _) Hx y Hy).
Qed.

Lemma ss_sno_unique (l : list DemandModel) (d e : DemandModel) :
  StronglySorted (fun d e => (sno d < sno e)%Z) l -> In d l -> In e l -> sno d = sno e -> d = e.
Proof.
  induction l as [|x l IH]; intros Hs Hd He Heq; [destruct Hd|].
  apply StronglySorted_inv in Hs as [Hs Hx]. rewrite List.Forall_forall in Hx.
  destruct Hd as [<-|Hd], He as [<-|He]; [reflexivity| | |auto].
  - pose proof (Hx e He). lia.
  - pose proof (Hx d Hd). lia.
Qed.

Lemma NoDup_map_in_eq {A B} (g : A -> B) (l : list A) (x y : A) :
  NoDup (map g l) -> In x l -> In y l -> g x = g y -> x = y.
Proof.
  induction l as [|z l IH]; simpl; intros Hnd Hx Hy Heq; [destruct Hx|].
  apply NoDup_cons in Hnd as [Hz Hnd].
  destruct Hx as [<-|Hx], Hy as [<-|Hy]; [reflexivity| | |auto].
  - exfalso. apply Hz, list_elem_of_In. rewrite Heq. apply in_map, Hy.
  - exfalso. apply Hz, list_elem_of_In. rewrite <- Heq. apply in_map, Hx.
Qed.

Lemma NoDup_map_filter {A B} (g : A -> B) (p : A -> bool) (l : list A) :
  NoDup (map g l) -> NoDup (map g (List.filter p l)).
Proof.
  induction l as [|x l IH]; simpl; intros H; [constructor|].
  apply NoDup_cons in H as [Hx H]. destruct (p x); simpl; [|auto].
  apply NoDup_cons. split; [|auto].
  intros Hin. apply Hx. apply list_elem_of_In in Hin. apply list_elem_of_In.
  apply in_map_iff in Hin as (y & <- & Hy). apply filter_In in Hy as [Hy _]. apply in_map, Hy.
Qed.

Lemma NoDup_snoc {B} (l : list B) (x : B) : NoDup l -> ~ In x l -> NoDup (l ++ [x]).
Proof.
  intros H Hx. apply NoDup_app. split; [exact H|]. split; [|apply NoDup_singleton].
  intros y Hy Hy'. apply list_elem_of_singleton in Hy'. subst y.
  apply Hx, list_elem_of_In, Hy.
Qed.

Lemma find_unique {A} (g : A -> string) (l : list A) (x : A) :
  NoDup (map g l) -> In x l -> List.find (fun y => String.eqb (g y) (g x)) l = Some x.
Proof.
  intros Hnd Hx.
  destruct (List.find (fun y => String.eqb (g y) (g x)) l) as [y|] eqn:E.
  - apply find_some in E as [Hy Heq]. apply String.eqb_eq in Heq.
    f_equal. exact (NoDup_map_in_eq g l y x Hnd Hy Hx Heq).
  - pose proof (find_none _ _ E x Hx) as Hf. simpl in Hf.
    rewrite String.eqb_refl in Hf. discriminate.
Qed.

Lemma next_sno_gt (ds : list DemandModel) (d : DemandModel) :
  In d ds -> (sno d < next_sno ds)%Z.
Proof.
  unfold next_sno. induction ds as [|x ds IH]; simpl; intros H; [destruct H|].
  destruct H as [<-|H]; [lia|]. specialize (IH H). lia.
Qed.

Lemma insert_demand_keys (ds : list DemandModel) (d : DemandModel)
    (r : DemandModel * list DemandModel) :
  insert_demand ds d = inr r ->
  NoDup (map dem_id ds) -> StronglySorted (fun d e => (sno d < sno e)%Z) ds ->
  NoDup (map dem_id (snd r)) /\ StronglySorted (fun d e => (sno d < sno e)%Z) (snd r).
Proof.
  unfold insert_demand. destruct (existsb _ ds) eqn:Ex; [discriminate|].
  intros H Hnd Hs. injection H as <-. simpl. split.
  - rewrite map_app. simpl. apply NoDup_snoc; [exact Hnd|].
    intros Hin. apply in_map_iff in Hin as (e & He & Hin).
    pose proof (existsb_false_forall _ _ Ex e Hin) as Hf. simpl in Hf.
    rewrite He, String.eqb_refl in Hf. discriminate.
  - apply ss_app_one; [exact Hs|]. intros y Hy. simpl. apply next_sno_gt, Hy.
Qed.

Lemma insert_demands_keys (news ds ins ds' : list DemandModel) :
  insert_demands ds news = inr (ins, ds') ->
  NoDup (map dem_id ds) -> StronglySorted (fun d e => (sno d < sno e)%Z) ds ->
  NoDup (map dem_id ds') /\ StronglySorted (fun d e => (sno d < sno e)%Z) ds'.
Proof.
  revert ds ins ds'. induction news as [|c news IH]; intros ds ins ds' H Hnd Hs; simpl in H.
  - injection H as <- <-. auto.
  - destruct (insert_demand ds c) as [e|[c' ds1]] eqn:E1; [discriminate|]. simpl in H.
    destruct (insert_demands ds1 news) as [e|[ins1 ds2]] eqn:E2; [discriminate|].
    simpl in H. injection H as <- <-.
    destruct (insert_demand_keys _ _ _ E1 Hnd Hs) as [Hnd1 Hs1].
    exact (IH _ _ _ E2 Hnd1 Hs1).
Qed.

Lemma update_demand_fields (db : store) (demand_id : string) (u : DemandUpdate)
    (user_id : string) (clock_now : datetime) (demand demand' : DemandModel) (db' : store) :
  get_demand_by_id db demand_id = Some demand ->
  update_demand db demand_id u user_id clock_now = inr (Some demand', db') ->
  sno demand' = sno demand /\ dem_id demand' = dem_id demand /\
  written_or_kept (du_account_id u) (dem_account_id demand) (dem_account_id demand') /\
  written_or_kept (du_project u) (dem_project demand) (dem_project demand') /\
  written_or_kept (du_role u) (role demand) (role demand') /\
  written_or_kept (du_role_code u) (role_code demand) (role_code demand') /\
  written_or_kept (du_location u) (location demand) (location demand') /\
  written_or_kept (du_revised u) (revised demand) (revised demand') /\
  date_written_or_kept (du_original_start_date u) (original_start_date demand)
    (original_start_date demand') /\
  date_written_or_kept (du_allocation_end_date u) (allocation_end_date demand)
    (allocation_end_date demand') /\
  written_or_kept (du_allocation_percentage u) (allocation_percentage demand)
    (allocation_percentage demand') /\
  written_or_kept (du_probability u) (dem_probability demand) (dem_probability demand') /\
  written_or_kept (du_status u) (status demand) (status demand') /\
  written_or_kept (du_resource_mapped u) (resource_mapped demand) (resource_mapped demand') /\
  written_or_kept (du_comment u) (dem_comment demand) (dem_comment demand') /\
  written_or_kept (du_start_month u) (dem_start_month demand) (dem_start_month demand') /\
  dem_last_updated_by demand' = user_id /\ dem_updated_on demand' = dt_date clock_now /\
  dem_added_by demand' = dem_added_by demand /\ dem_added_on demand' = dem_added_on demand /\
  accounts db' = accounts db /\
  demands db' = map (fun d => if Z.eqb (sno d) (sno demand) then demand' else d) (demands db).
Proof.
  intros Hget Hupd. unfold update_demand in Hupd. rewrite Hget in Hupd.
  destruct (match du_account_id u with
            | Some v => if account_exists db v then inr tt
                        else inl (HTTPException 404 "Referenced account not found")
            | None => inr tt end) as [e|chk]; [discriminate|]; simpl in Hupd.
  destruct (convert_date (du_original_start_date u)) as [e|osd] eqn:E1; [discriminate|];
    simpl in Hupd.
  destruct (convert_date (du_allocation_end_date u)) as [e|aed] eqn:E2; [discriminate|];
    simpl in Hupd.
  destruct (flush_date osd) as [e|osd'] eqn:F1; [discriminate|]; simpl in Hupd.
  destruct (flush_date aed) as [e|aed'] eqn:F2; [discriminate|]; simpl in Hupd.
  injection Hupd as <- <-. simpl.
  repeat (split; [first [ reflexivity | apply setattr_written_or_kept
                         | eapply convert_flush_date; eassumption ]|]).
  reflexivity.
Qed.

Lemma keys_create_account (db : store) (data : AccountCreate) (user_id : string)
    (t1 t2 : datetime) :
  keys_ok db -> keys_ok (post db (create_account db data user_id t1 t2)).
Proof.
  intros K. unfold create_account.
  destruct (create_date (ac_revised_start_date data)); [exact K|]. simpl.
  destruct (create_date (ac_planned_start_date data)); [exact K|]. simpl.
  destruct (create_date (ac_planned_end_date data)); [exact K|]. simpl.
  unfold insert_account. destruct (existsb _ (accounts db)) eqn:Ex; [exact K|]. simpl.
  destruct K as (Ka & Kd & Ks). split; [|split; assumption]. simpl.
  rewrite map_app. simpl. apply NoDup_snoc; [exact Ka|].
  intros Hin. apply in_map_iff in Hin as (a & Ha & Hin).
  pose proof (existsb_false_forall _ _ Ex a Hin) as Hf. simpl in Hf.
  rewrite Ha, String.eqb_refl in Hf. discriminate.
Qed.

Lemma keys_update_account (db : store) (account_id : string) (u : AccountUpdate)
    (user_id : string) (t : datetime) :
  keys_ok db -> keys_ok (post db (update_account db account_id u user_id t)).
Proof.
  intros K. destruct (update_account db account_id u user_id t) as [e|[r db']] eqn:Hupd;
    [exact K|]. simpl.
  destruct (update_account_inv _ _ _ _ _ _ _ Hupd)
    as [(_ & _ & ->)|(account & account' & _ & _ & Hid & _ & _ & _ & Ha & Hd)]; [exact K|].
  destruct K as (Ka & Kd & Ks). unfold keys_ok. rewrite Ha, Hd. split; [|split; assumption]. simpl.
  rewrite map_map.
  erewrite map_ext; [exact Ka|]. intros a. simpl.
  destruct (String.eqb (acc_id a) (acc_id account)) eqn:E; [|reflexivity].
  apply String.eqb_eq in E. rewrite Hid, E. reflexivity.
Qed.

Lemma keys_delete_account (db : store) (account_id : string) :
  keys_ok db -> keys_ok (post db (delete_account db account_id)).
Proof.
  intros K. unfold delete_account.
  destruct (get_account_by_id db account_id) as [account|]; [|exact K].
  destruct (0 <? _)%nat; [exact K|]. simpl.
  destruct K as (Ka & Kd & Ks). split; [|split; assumption]. simpl.
  apply NoDup_map_filter, Ka.
Qed.

Lemma keys_create_demand (db : store) (data : DemandCreate) (user_id : string)
    (t1 t2 : datetime) :
  keys_ok db -> keys_ok (post db (create_demand db data user_id t1 t2)).
Proof.
  intros K. unfold create_demand.
  destruct (get_account_by_id db (dc_account_id data)); [|exact K].
  destruct (create_date (dc_original_start_date data)); [exact K|]. simpl.
  destruct (create_date (dc_allocation_end_date data)); [exact K|]. simpl.
  destruct (insert_demand (demands db) _) as [e|r] eqn:Hins; [exact K|]. simpl.
  destruct K as (Ka & Kd & Ks). split; [exact Ka|]. simpl.
  exact (insert_demand_keys _ _ _ Hins Kd Ks).
Qed.

Lemma keys_update_demand (db : store) (demand_id : string) (u : DemandUpdate)
    (user_id : string) (t : datetime) :
  keys_ok db -> keys_ok (post db (update_demand db demand_id u user_id t)).
Proof.
  intros K. destruct (update_demand db demand_id u user_id t) as [e|[r db']] eqn:Hupd;
    [exact K|]. simpl.
  destruct (get_demand_by_id db demand_id) as [demand|] eqn:Hget.
  2:{ unfold update_demand in Hupd. rewrite Hget in Hupd. injection Hupd as _ <-. exact K. }
  destruct r as [demand'|].
  2:{ destruct (update_demand_inv _ _ _ _ _ _ _ Hupd) as [(H & _)|(? & ? & _ & H & _)];
      congruence. }
  destruct (update_demand_fields _ _ _ _ _ _ _ _ Hget Hupd) as (Hs & Hi & Hrest).
  do 18 apply proj2 in Hrest. destruct Hrest as [Ha Hd].
  apply get_demand_by_id_Some in Hget as [Hin _].
  destruct K as (Ka & Kd & Ks). split; [rewrite Ha; exact Ka|]. rewrite Hd. split.
  - rewrite map_map. erewrite map_ext_in; [exact Kd|]. intros d Hdin. simpl.
    destruct (Z.eqb (sno d) (sno demand)) eqn:E; [|reflexivity].
    apply Z.eqb_eq in E. rewrite (ss_sno_unique _ _ _ Ks Hdin Hin E). exact Hi.
  - apply ss_map; [|exact Ks]. intros x y _ _ Hxy.
    destruct (Z.eqb (sno x) (sno demand)) eqn:Ex, (Z.eqb (sno y) (sno demand)) eqn:Ey;
      rewrite ?Z.eqb_eq, ?Z.eqb_neq in Ex, Ey; rewrite ?Hs; lia.
Qed.

Lemma keys_delete_demand (db : store) (demand_id : string) :
  keys_ok db -> keys_ok (post db (delete_demand db demand_id)).
Proof.
  intros K. unfold delete_demand.
  destruct (get_demand_by_id db demand_id) as [demand|]; [|exact K]. simpl.
  destruct K as (Ka & Kd & Ks). split; [exact Ka|]. simpl. split.
  - apply NoDup_map_filter, Kd.
  - apply ss_filter, Ks.
Qed.

Lemma keys_clone_demand (db : store) (demand_id : string) (count : Z) (user_id : string)
    (t : datetime) (clock : nat -> datetime) :
  keys_ok db -> keys_ok (post db (clone_demand db demand_id count user_id t clock)).
Proof.
  intros K. unfold clone_demand.
  destruct (get_demand_by_id db demand_id); [|exact K].
  destruct (insert_demands (demands db) _) as [e|[ins ds']] eqn:Hins; [exact K|]. simpl.
  destruct K as (Ka & Kd & Ks). split; [exact Ka|]. simpl.
  exact (insert_demands_keys _ _ _ _ Hins Kd Ks).
Qed.

Lemma keys_exec (db : store) (o : op) : keys_ok db -> keys_ok (exec db o).
Proof.
  destruct o; simpl.
  - apply keys_create_account.
  - apply keys_update_account.
  - apply keys_delete_account.
  - apply keys_create_demand.
  - apply keys_update_demand.
  - apply keys_delete_demand.
  - apply keys_clone_demand.
Qed.

Lemma keys_reachable (db : store) : reachable db -> keys_ok db.
Proof.
  induction 1 as [|db o _ IH].
  - split; [constructor|]. split; constructor.
  - apply keys_exec, IH.
Qed.

Lemma refint_reachable (db : store) : reachable db -> refint db.
Proof.
  induction 1 as [|db o _ IH].
  - unfold refint. simpl. constructor.
  - apply refint_exec, IH.
Qed.

Lemma reachable_sample_db2 : reachable sample_db2.
Proof.
  exact (reachable_exec _ (OpCreateDemand sample_demand_create "system@example.com" t0 t0)
           (reachable_exec _ (OpCreateAccount sample_account_create "system@example.com" t0 t0)
              reachable_empty)).
Qed.

Lemma sno_eqb_id (db : store) (demand : DemandModel) :
  keys_ok db -> In demand (demands db) ->
  forall d, In d (demands db) ->
    Z.eqb (sno d) (sno demand) = String.eqb (dem_id d) (dem_id demand).
Proof.
  intros (_ & Kd & Ks) Hin d Hd.
  destruct (Z.eqb (sno d) (sno demand)) eqn:E1, (String.eqb (dem_id d) (dem_id demand)) eqn:E2;
    try reflexivity.
  - apply Z.eqb_eq in E1. rewrite (ss_sno_unique _ _ _ Ks Hd Hin E1), String.eqb_refl in E2.
    discriminate.
  - apply String.eqb_eq in E2. rewrite (NoDup_map_in_eq _ _ _ _ Kd Hd Hin E2), Z.eqb_refl in E1.
    discriminate.
Qed.

Lemma find_filter_irrelevant {A} (f p : A -> bool) (l : list A) :
  (forall y, In y l -> f y = true -> p y = true) -> List.find f (List.filter p l) = List.find f l.
Proof.
  induction l as [|y l IH]; simpl; intros H; [reflexivity|].
  destruct (f y) eqn:Ef.
  - rewrite (H y (or_introl eq_refl) Ef). simpl. rewrite Ef. reflexivity.
  - destruct (p y); simpl; [rewrite Ef|]; apply IH; intros z Hz; apply H; right; exact Hz.
Qed.

(** ** X: keys of reachable stores *)

(** In every store reachable by the service operations, account ids are
    pairwise distinct, demand ids are pairwise distinct, [sno] increases
    strictly along the table, and a lookup by id finds the one row with that
    id. *)
Theorem reachable_store_keys (db : store) :
  reachable db ->
  keys_ok db /\
  (forall a, In a (accounts db) -> get_account_by_id db (acc_id a) = Some a) /\
  (forall d, In d (demands db) -> get_demand_by_id db (dem_id d) = Some d).
Proof.
  intros R. pose proof (keys_reachable db R) as K. split; [exact K|].
  destruct K as (Ka & Kd & _). split; intros x Hx; apply find_unique; assumption.
Qed.

Lemma reachable_store_keys_witness : reachable sample_db2 /\ keys_ok sample_db2.
Proof.
  split; [exact reachable_sample_db2|].
  exact (proj1 (reachable_store_keys sample_db2 reachable_sample_db2)).
Defined.

(** ** X: deleting a demand *)

(** In a reachable store, [delete_demand] of a missing id returns [False]
    and changes nothing (the route answers 404 "Demand not found"); of an
    existing id it returns [True] and removes exactly the demand with that
    id: the other demands stay in order with their lookups unchanged, the
    accounts are unchanged, and the route answers success. *)
Theorem delete_demand_removes_one (db : store) (demand_id : string) :
  reachable db ->
  (get_demand_by_id db demand_id = None ->
     delete_demand db demand_id = inr (false, db) /\
     api_delete_demand db demand_id = (Failure 404 (DText "Demand not found"), db)) /\
  (forall demand, get_demand_by_id db demand_id = Some demand ->
     let db' := mkStore (accounts db)
                  (List.filter (fun d => negb (String.eqb (dem_id d) demand_id)) (demands db)) in
     delete_demand db demand_id = inr (true, db') /\
     api_delete_demand db demand_id = (Success (Some "Demand deleted successfully") true, db') /\
     get_demand_by_id db' demand_id = None /\
     (forall x, x <> demand_id -> get_demand_by_id db' x = get_demand_by_id db x)).
Proof.
  intros R. pose proof (keys_reachable db R) as K. split.
  - intros H. unfold api_delete_demand, delete_demand. rewrite H. split; reflexivity.
  - intros demand H. cbv zeta.
    assert (Hdel : delete_demand db demand_id
              = inr (true, mkStore (accounts db)
                  (List.filter (fun d => negb (String.eqb (dem_id d) demand_id)) (demands db)))).
    { unfold delete_demand. rewrite H. apply get_demand_by_id_Some in H as [Hin Hid].
      do 3 f_equal. apply filter_ext_in. intros d Hd.
      rewrite (sno_eqb_id db demand K Hin d Hd), Hid. reflexivity. }
    split; [exact Hdel|]. split; [unfold api_delete_demand; rewrite Hdel; reflexivity|].
    split.
    + apply find_none_intro. intros d Hd. apply filter_In in Hd as [_ Hd].
      destruct (String.eqb (dem_id d) demand_id); [discriminate|reflexivity].
    + intros x Hx. unfold get_demand_by_id. simpl. apply find_filter_irrelevant.
      intros y _ Hy. apply String.eqb_eq in Hy. subst x.
      destruct (String.eqb (dem_id y) demand_id) eqn:E; [|reflexivity].
      apply String.eqb_eq in E. congruence.
Qed.

Lemma delete_demand_removes_one_witness :
  reachable sample_db2 /\
  get_demand_by_id (mkStore (accounts sample_db2)
    (List.filter (fun d => negb (String.eqb (dem_id d) "DEM-20240105090307"))
       (demands sample_db2))) "DEM-20240105090307" = None.
Proof.
  split; [exact reachable_sample_db2|].
  destruct (get_demand_by_id sample_db2 "DEM-20240105090307") as [demand|] eqn:E;
    [|vm_compute in E; discriminate].
  exact (proj1 (proj2 (proj2 (proj2 (delete_demand_removes_one sample_db2 "DEM-20240105090307"
           reachable_sample_db2) demand E)))).
Defined.

(** ** X: updating a demand *)

(** In a reachable store, a successful [update_demand] of an existing
    demand returns the updated row, which keeps [sno], [id], [added_by] and
    [added_on], writes exactly the fields set in the partial input (a date
    string stored parsed, an explicit null stored as [None]) and keeps every
    unset one, and sets [last_updated_by] to the actor and [updated_on] to
    the current date; the store replaces exactly the row with that id and
    keeps the accounts. *)
Theorem update_demand_frame (db : store) (demand_id : string) (u : DemandUpdate)
    (user_id : string) (clock_now : datetime) (demand : DemandModel)
    (r : option DemandModel) (db' : store) :
  reachable db ->
  get_demand_by_id db demand_id = Some demand ->
  update_demand db demand_id u user_id clock_now = inr (r, db') ->
  exists demand', r = Some demand' /\
  sno demand' = sno demand /\ dem_id demand' = demand_id /\
  written_or_kept (du_account_id u) (dem_account_id demand) (dem_account_id demand') /\
  written_or_kept (du_project u) (dem_project demand) (dem_project demand') /\
  written_or_kept (du_role u) (role demand) (role demand') /\
  written_or_kept (du_role_code u) (role_code demand) (role_code demand') /\
  written_or_kept (du_location u) (location demand) (location demand') /\
  written_or_kept (du_revised u) (revised demand) (revised demand') /\
  date_written_or_kept (du_original_start_date u) (original_start_date demand)
    (original_start_date demand') /\
  date_written_or_kept (du_allocation_end_date u) (allocation_end_date demand)
    (allocation_end_date demand') /\
  written_or_kept (du_allocation_percentage u) (allocation_percentage demand)
    (allocation_percentage demand') /\
  written_or_kept (du_probability u) (dem_probability demand) (dem_probability demand') /\
  written_or_kept (du_status u) (status demand) (status demand') /\
  written_or_kept (du_resource_mapped u) (resource_mapped demand) (resource_mapped demand') /\
  written_or_kept (du_comment u) (dem_comment demand) (dem_comment demand') /\
  written_or_kept (du_start_month u) (dem_start_month demand) (dem_start_month demand') /\
  dem_last_updated_by demand' = user_id /\ dem_updated_on demand' = dt_date clock_now /\
  dem_added_by demand' = dem_added_by demand /\ dem_added_on demand' = dem_added_on demand /\
  accounts db' = accounts db /\
  demands db' = map (fun d => if String.eqb (dem_id d) demand_id then demand' else d)
                    (demands db).
Proof.
  intros R Hget Hupd. pose proof (keys_reachable db R) as K.
  destruct r as [demand'|].
  2:{ destruct (update_demand_inv _ _ _ _ _ _ _ Hupd) as [(H & _)|(? & ? & _ & H & _)];
      congruence. }
  exists demand'. split; [reflexivity|].
  destruct (update_demand_fields _ _ _ _ _ _ _ _ Hget Hupd) as (Hs & Hi & Hrest).
  pose proof Hget as Hget'. apply get_demand_by_id_Some in Hget' as [Hin Hid].
  split; [exact Hs|]. split; [rewrite Hi; exact Hid|].
  do 18 (split; [exact (proj1 Hrest)|]; apply proj2 in Hrest).
  destruct Hrest as [Ha Hd]. split; [exact Ha|]. rewrite Hd.
  apply map_ext_in. intros d Hdin. rewrite (sno_eqb_id db demand K Hin d Hdin), Hid.
  reflexivity.
Qed.

Lemma update_demand_frame_witness :
  exists demand',
    update_demand sample_db2 "DEM-20240105090307"
      (mkDemandUpdate None None None None None None None None None None None None
         (Some (Some "Priority")) None) "system@example.com" t0
    = inr (Some demand', mkStore (accounts sample_db2) [demand']) /\
    dem_comment demand' = Some "Priority" /\ role demand' = Some "Engineer".
Proof.
  destruct (get_demand_by_id sample_db2 "DEM-20240105090307") as [demand|] eqn:E;
    [|vm_compute in E; discriminate].
  destruct (update_demand sample_db2 "DEM-20240105090307"
      (mkDemandUpdate None None None None None None None None None None None None
         (Some (Some "Priority")) None) "system@example.com" t0) as [e|[r db']] eqn:U;
    [vm_compute in U; discriminate|].
  destruct (update_demand_frame sample_db2 "DEM-20240105090307" _ "system@example.com" t0
              demand r db' reachable_sample_db2 E U)
    as (demand' & -> & Hrest).
  exists demand'. vm_compute in U. injection U as H1 H2. subst demand' db'.
  split; [reflexivity|]. split; reflexivity.
Defined.

(** ** X: demands listed per account *)

(** [GET /api/accounts/{account_id}/demands] answers 404 for a missing
    account; in a reachable store every demand is listed by this route for
    exactly one existing account. *)
Theorem demands_by_account_partition (db : store) :
  (forall account_id, get_account_by_id db account_id = None ->
     api_get_demands_by_account db account_id = (Failure 404 (DText "Account not found"), db)) /\
  (reachable db ->
   forall d, In d (demands db) ->
     exists a, In a (accounts db) /\
       api_get_demands_by_account db (acc_id a)
         = (Success None (get_demands_by_account db (acc_id a)), db) /\
       In d (get_demands_by_account db (acc_id a)) /\
       (forall a', In a' (accounts db) -> In d (get_demands_by_account db (acc_id a')) -> a' = a)).
Proof.
  split.
  - intros account_id H. unfold api_get_demands_by_account. rewrite H. reflexivity.
  - intros R d Hd. pose proof (keys_reachable db R) as (Ka & _ & _).
    destruct (refint_elim _ _ (refint_reachable db R) Hd) as (a & Ha & Href).
    exists a. split; [exact Ha|]. split.
    { unfold api_get_demands_by_account.
      replace (get_account_by_id db (acc_id a)) with (Some a); [reflexivity|].
      symmetry. apply find_unique; assumption. }
    split.
    + apply filter_In. split; [exact Hd|]. rewrite Href. simpl. apply String.eqb_refl.
    + intros a' Ha' Hin. apply filter_In in Hin as [_ Hc]. rewrite Href in Hc. simpl in Hc.
      apply String.eqb_eq in Hc. exact (NoDup_map_in_eq _ _ _ _ Ka Ha' Ha (eq_sym Hc)).
Qed.

(** ** X: dashboard statistics *)

Lemma dict_set_fresh (d : list (option string * nat)) (k : option string) (v : nat) :
  ~ In k (map fst d) -> dict_set d k v = d ++ [(k, v)].
Proof.
  intros H. unfold dict_set. replace (existsb _ d) with false; [reflexivity|].
  symmetry. apply Bool.not_true_iff_false. intros Ht.
  apply existsb_exists in Ht as (p & Hp & Hk).
  destruct (opt_str_eq_dec (fst p) k) as [E|]; [|discriminate].
  apply H. rewrite <- E. apply in_map, Hp.
Qed.

Lemma dict_of_rows_distinct (rows : list (option string * nat)) :
  List.NoDup (map fst rows) -> dict_of_rows rows = rows.
Proof.
  unfold dict_of_rows.
  assert (G : forall acc, List.NoDup (map fst (acc ++ rows)) ->
            fold_left (fun d p => dict_set d (fst p) (snd p)) rows acc = acc ++ rows).
  { induction rows as [|r rows IH]; intros acc H; simpl; [rewrite app_nil_r; reflexivity|].
    rewrite map_app in H. simpl in H.
    rewrite dict_set_fresh.
    2:{ intros Hin. apply (NoDup_remove_2 _ _ _ H). apply in_or_app. left. exact Hin. }
    rewrite <- surjective_pairing, IH.
    - rewrite <- app_assoc. reflexivity.
    - rewrite <- app_assoc, map_app. exact H. }
  intros H. exact (G [] H).
Qed.

Lemma group_count_keys (ks : list (option string)) :
  map fst (group_count ks) = nodup opt_str_eq_dec ks.
Proof. unfold group_count. rewrite map_map. apply map_id. Qed.

Lemma validate_str_keys_ok (l : list (option string * nat)) :
  (forall k n, In (k, n) l -> k <> None) ->
  exists l', validate_str_keys l = inr l' /\ map (fun p => (Some (fst p), snd p)) l' = l.
Proof.
  induction l as [|[k n] l IH]; intros H; simpl; [exists []; auto|].
  destruct k as [s|]; [|exfalso; exact (H None n (or_introl eq_refl) eq_refl)].
  destruct IH as (l' & -> & Hl'); [intros k m Hk; apply (H k m); right; exact Hk|].
  simpl. exists ((s, n) :: l'). simpl. rewrite Hl'. auto.
Qed.

Lemma validate_str_keys_none (l : list (option string * nat)) (n : nat) :
  In (None, n) l -> validate_str_keys l = inl ValueError.
Proof.
  induction l as [|[k m] l IH]; simpl; intros H; [destruct H|].
  destruct k as [s|]; [|reflexivity].
  destruct H as [H|H]; [discriminate|]. rewrite (IH H). reflexivity.
Qed.

Lemma validate_str_keys_err (l : list (option string * nat)) (e : exn) :
  validate_str_keys l = inl e -> e = ValueError.
Proof.
  induction l as [|[[s|] n] l IH]; simpl; intros H; try discriminate.
  - destruct (validate_str_keys l); simpl in H; [apply IH; exact H|discriminate].
  - injection H as <-. reflexivity.
Qed.

Lemma count_occ_filter {A} (f : A -> option string) (l : list A) (s : string) :
  count_occ opt_str_eq_dec (map f l) (Some s)
  = length (List.filter (fun a => col_eq (f a) s) l).
Proof.
  induction l as [|a l IH]; simpl; [reflexivity|].
  destruct (opt_str_eq_dec (f a) (Some s)) as [E|E].
  - rewrite E. simpl. rewrite String.eqb_refl. simpl. rewrite IH. reflexivity.
  - destruct (f a) as [t|] eqn:Ef; simpl; [|exact IH].
    destruct (String.eqb t s) eqn:Et; [|exact IH].
    apply String.eqb_eq in Et. subst t. contradiction.
Qed.

Lemma group_dict_get (ks : list (option string)) (l' : list (string * nat)) (s : string) :
  map (fun p => (Some (fst p), snd p)) l' = group_count ks ->
  dict_get l' s = let n := count_occ opt_str_eq_dec ks (Some s) in
                  if (n =? 0)%nat then None else Some n.
Proof.
  intros H. cbv zeta.
  assert (Hkeys : map Some (map fst l') = nodup opt_str_eq_dec ks).
  { rewrite <- group_count_keys, <- H, !map_map. reflexivity. }
  assert (Hnd : List.NoDup (map fst l')).
  { apply (NoDup_map_inv Some). rewrite Hkeys. apply NoDup_nodup. }
  assert (Hin : forall n, In (s, n) l' <-> In (Some s) ks /\ n = count_occ opt_str_eq_dec ks (Some s)).
  { intros n. split.
    - intros Hsn. apply (in_map (fun p => (Some (fst p), snd p))) in Hsn. rewrite H in Hsn.
      unfold group_count in Hsn. apply in_map_iff in Hsn as (k & Hk & Hkin).
      injection Hk as -> ->. apply nodup_In in Hkin. auto.
    - intros [Hks ->].
      assert (Hg : In (Some s, count_occ opt_str_eq_dec ks (Some s)) (group_count ks)).
      { unfold group_count. apply (in_map (fun k => (k, count_occ opt_str_eq_dec ks k))).
        apply nodup_In, Hks. }
      rewrite <- H in Hg. apply in_map_iff in Hg as ([s' n'] & Hp & Hp'). simpl in Hp.
      injection Hp as -> ->. exact Hp'. }
  unfold dict_get.
  destruct (List.find (fun p => String.eqb (fst p) s) l') as [[s' n]|] eqn:E.
  - apply find_some in E as [Hp Hs]. simpl in Hs. apply String.eqb_eq in Hs. subst s'.
    apply Hin in Hp as [Hks ->]. simpl.
    apply (count_occ_In opt_str_eq_dec) in Hks.
    destruct (count_occ opt_str_eq_dec ks (Some s)); [lia|reflexivity].
  - destruct (count_occ opt_str_eq_dec ks (Some s)) eqn:Ec; [reflexivity|].
    exfalso. assert (Hks : In (Some s) ks) by (apply (count_occ_In opt_str_eq_dec); lia).
    pose proof (proj2 (Hin _) (conj Hks eq_refl)) as Hp.
    pose proof (find_none _ _ E _ Hp) as Hf. simpl in Hf. rewrite String.eqb_refl in Hf.
    discriminate.
Qed.

Lemma group_count_none (ks : list (option string)) :
  In None ks -> exists n, In (None, n) (group_count ks).
Proof.
  intros H. exists (count_occ opt_str_eq_dec ks None). unfold group_count.
  apply (in_map (fun k => (k, count_occ opt_str_eq_dec ks k))). apply nodup_In, H.
Qed.

Lemma validated_group_nodup (ks : list (option string)) (l' : list (string * nat)) :
  map (fun p => (Some (fst p), snd p)) l' = group_count ks -> NoDup (map fst l').
Proof.
  intros H. apply NoDup_ListNoDup. apply (NoDup_map_inv Some).
  rewrite map_map. replace (map (fun x => Some (fst x)) l') with (map fst (group_count ks)).
  - rewrite group_count_keys. apply NoDup_nodup.
  - rewrite <- H, map_map. reflexivity.
Qed.

Lemma group_count_all_some {A} (f : A -> option string) (l : list A) :
  Forall (fun a => f a <> None) l ->
  forall k n, In (k, n) (dict_of_rows (group_count (map f l))) -> k <> None.
Proof.
  intros Hall k n Hk. rewrite dict_of_rows_distinct in Hk.
  2:{ rewrite group_count_keys. apply NoDup_nodup. }
  unfold group_count in Hk. apply in_map_iff in Hk as (k' & Hk & Hin).
  injection Hk as -> _. apply nodup_In, in_map_iff in Hin as (a & <- & Ha).
  exact (proj1 (List.Forall_forall _ _) Hall a Ha).
Qed.

Lemma get_dashboard_stats_null (db : store) :
  (exists a, In a (accounts db) /\ opportunity_status a = None) \/
  (exists d, In d (demands db) /\ status d = None) ->
  get_dashboard_stats db = inl ValueError.
Proof.
  intros H. unfold get_dashboard_stats.
  rewrite !dict_of_rows_distinct by (rewrite group_count_keys; apply NoDup_nodup).
  destruct H as [(a & Ha & Hn)|(d & Hd & Hn)].
  - destruct (group_count_none (map opportunity_status (accounts db))) as (n & Hn').
    { rewrite <- Hn. apply in_map, Ha. }
    rewrite (validate_str_keys_none _ _ Hn'). reflexivity.
  - destruct (group_count_none (map status (demands db))) as (n & Hn').
    { rewrite <- Hn. apply in_map, Hd. }
    destruct (validate_str_keys _) as [e|la] eqn:Ea; simpl.
    + exact (f_equal inl (validate_str_keys_err _ _ Ea)).
    + rewrite (validate_str_keys_none _ _ Hn'). reflexivity.
Qed.

(** [get_dashboard_stats] counts: when every account has an
    [opportunity_status] and every demand a [status], the statistics hold
    the number of accounts and of demands, and each dict maps every status
    value [s] present in its table (and no other key) to the number of rows
    with that status, its keys pairwise distinct.  When some account has a
    NULL [opportunity_status] or some demand a NULL [status], building the
    statistics raises [ValueError] and [GET /api/dashboard/stats] answers
    500. *)
Theorem get_dashboard_stats_counts (db : store) :
  (Forall (fun a => opportunity_status a <> None) (accounts db) ->
   Forall (fun d => status d <> None) (demands db) ->
   exists st, get_dashboard_stats db = inr st /\
     api_get_dashboard_stats db = (Success None st, db) /\
     totalAccounts st = length (accounts db) /\ totalDemands st = length (demands db) /\
     NoDup (map fst (accountsByStatus st)) /\ NoDup (map fst (demandsByStatus st)) /\
     (forall s, dict_get (accountsByStatus st) s =
        let n := length (List.filter (fun a => col_eq (opportunity_status a) s) (accounts db)) in
        if (n =? 0)%nat then None else Some n) /\
     (forall s, dict_get (demandsByStatus st) s =
        let n := length (List.filter (fun d => col_eq (status d) s) (demands db)) in
        if (n =? 0)%nat then None else Some n)) /\
  ((exists a, In a (accounts db) /\ opportunity_status a = None) \/
   (exists d, In d (demands db) /\ status d = None) ->
   get_dashboard_stats db = inl ValueError /\
   api_get_dashboard_stats db = (Failure 500 (DText "Internal Server Error"), db)).
Proof.
  split.
  - intros Ha Hd.
    destruct (validate_str_keys_ok _ (group_count_all_some _ _ Ha)) as (la & Ea & Hla).
    destruct (validate_str_keys_ok _ (group_count_all_some _ _ Hd)) as (ld & Ed & Hld).
    rewrite dict_of_rows_distinct in Hla, Hld
      by (rewrite group_count_keys; apply NoDup_nodup).
    assert (Hs : get_dashboard_stats db
                 = inr (mkDashboardStats (length (accounts db)) (length (demands db)) la ld)).
    { unfold get_dashboard_stats. cbv zeta. rewrite Ea. simpl. rewrite Ed. reflexivity. }
    eexists. split; [exact Hs|]. split; [unfold api_get_dashboard_stats; rewrite Hs; reflexivity|].
    simpl. split; [reflexivity|]. split; [reflexivity|].
    split; [exact (validated_group_nodup _ _ Hla)|].
    split; [exact (validated_group_nodup _ _ Hld)|].
    split; intros s; [rewrite (group_dict_get _ _ s Hla)|rewrite (group_dict_get _ _ s Hld)];
      rewrite count_occ_filter; reflexivity.
  - intros H. pose proof (get_dashboard_stats_null db H) as Hs.
    split; [exact Hs|]. unfold api_get_dashboard_stats. rewrite Hs. reflexivity.
Qed.

(** Setting a status column to null through the update routes: [PUT
    /api/accounts/{id}] with [{"opportunity_status": null}] on an existing
    account, or [PUT /api/demands/{id}] with [{"status": null}] on an
    existing demand, succeeds and stores the NULL; from then on [GET
    /api/dashboard/stats] answers 500. *)
Theorem null_status_breaks_dashboard :
  (forall (db : store) (account_id : string) (clock_now : datetime) (account : AccountModel),
     get_account_by_id db account_id = Some account ->
     exists account' db',
       api_update_account db account_id null_opportunity_status clock_now
         = (Success (Some "Account updated successfully") account', db') /\
       opportunity_status account' = None /\
       api_get_dashboard_stats db' = (Failure 500 (DText "Internal Server Error"), db')) /\
  (forall (db : store) (demand_id : string) (clock_now : datetime) (demand : DemandModel),
     get_demand_by_id db demand_id = Some demand ->
     exists demand' db',
       api_update_demand db demand_id null_demand_status clock_now
         = (Success (Some "Demand updated successfully") demand', db') /\
       status demand' = None /\
       api_get_dashboard_stats db' = (Failure 500 (DText "Internal Server Error"), db')).
Proof.
  split.
  - intros db account_id clock_now account Hget.
    pose proof (find_some _ _ Hget) as [Hin _].
    unfold api_update_account, update_account. rewrite Hget. simpl.
    refine (ex_intro _ _ (ex_intro _ _ (conj eq_refl (conj eq_refl _)))).
    unfold api_get_dashboard_stats. rewrite get_dashboard_stats_null; [reflexivity|].
    left. eexists. split.
    { simpl. apply in_map_iff. exists account. split; [|exact Hin].
      rewrite String.eqb_refl. reflexivity. }
    reflexivity.
  - intros db demand_id clock_now demand Hget.
    pose proof (find_some _ _ Hget) as [Hin _].
    unfold api_update_demand, update_demand. rewrite Hget. simpl.
    refine (ex_intro _ _ (ex_intro _ _ (conj eq_refl (conj eq_refl _)))).
    unfold api_get_dashboard_stats. rewrite get_dashboard_stats_null; [reflexivity|].
    right. eexists. split.
    { simpl. apply in_map_iff. exists demand. split; [|exact Hin].
      rewrite Z.eqb_refl. reflexivity. }
    reflexivity.
Qed.

(** ** X: dates, [strptime] and [isoformat] *)

Lemma digit_val_range (c lo hi : ascii) :
  in_range c lo hi = true -> (48 <= nat_of_ascii lo)%nat ->
  (Z.of_nat (nat_of_ascii lo) - 48 <= digit_val c <= Z.of_nat (nat_of_ascii hi) - 48)%Z.
Proof.
  unfold in_range, digit_val. intros H Hlo. apply andb_prop in H as [H1 H2].
  apply Nat.leb_le in H1, H2. lia.
Qed.

Lemma is_digit_range (c : ascii) : is_digit c = true -> (0 <= digit_val c <= 9)%Z.
Proof.
  unfold is_digit, digit_val. intros H. apply andb_prop in H as [H1 H2].
  apply Nat.leb_le in H1, H2. lia.
Qed.

Lemma in_range_19 (c : ascii) : in_range c "1" "9" = true -> (1 <= digit_val c <= 9)%Z.
Proof. intros H. exact (digit_val_range c "1" "9" H ltac:(vm_compute; lia)). Qed.

Lemma year_digits :
  forallb (fun n =>
    match fmt_num 4 (Z.of_nat n) with
    | String a (String b (String c (String d EmptyString))) =>
        is_digit a && is_digit b && is_digit c && is_digit d &&
        Z.eqb (1000 * digit_val a + 100 * digit_val b + 10 * digit_val c + digit_val d)
              (Z.of_nat n)
    | _ => false
    end) (seq 1 (Z.to_nat 9999)) = true.
Proof. vm_compute. reflexivity. Qed.

Lemma re_Y_fmt (y : Z) (r : string) :
  (1 <= y <= 9999)%Z -> re_Y (fmt_num 4 y +:+ r) = Some (y, r).
Proof.
  intros Hy. pose proof year_digits as H. rewrite forallb_forall in H.
  specialize (H (Z.to_nat y) ltac:(apply in_seq; lia)). rewrite Z2Nat.id in H by lia.
  destruct (fmt_num 4 y) as [|a [|b [|c [|d [|e s]]]]]; try discriminate.
  rewrite !append_cons, append_nil. unfold re_Y.
  apply andb_prop in H as [H Hv]. apply Z.eqb_eq in Hv. rewrite H, Hv. reflexivity.
Qed.

Lemma re_m_dash_fmt (m : Z) (r : string) :
  (1 <= m <= 12)%Z -> re_m_dash (fmt_num 2 m +:+ "-" +:+ r) = Some (m, r).
Proof.
  intros Hm.
  assert (m = 1 \/ m = 2 \/ m = 3 \/ m = 4 \/ m = 5 \/ m = 6 \/ m = 7 \/ m = 8 \/
          m = 9 \/ m = 10 \/ m = 11 \/ m = 12)%Z as Hc by lia.
  repeat destruct Hc as [->|Hc]; subst; vm_compute; reflexivity.
Qed.

Lemma re_d_fmt (d : Z) :
  (1 <= d <= 31)%Z -> re_d (fmt_num 2 d) = Some (d, "").
Proof.
  intros Hd.
  assert (H : forallb (fun n => bool_decide (re_d (fmt_num 2 (Z.of_nat n)) = Some (Z.of_nat n, "")))
                (seq 1 31) = true) by (vm_compute; reflexivity).
  rewrite forallb_forall in H. specialize (H (Z.to_nat d) ltac:(apply in_seq; lia)).
  rewrite Z2Nat.id in H by lia. exact (bool_decide_eq_true_1 _ H).
Qed.

Lemma re_Y_range (s r : string) (y : Z) : re_Y s = Some (y, r) -> (0 <= y <= 9999)%Z.
Proof.
  unfold re_Y. destruct s as [|a [|b [|c [|d s]]]]; try discriminate.
  destruct (is_digit a) eqn:Ha, (is_digit b) eqn:Hb, (is_digit c) eqn:Hc,
           (is_digit d) eqn:Hd; try discriminate.
  intros H. injection H as <- _.
  apply is_digit_range in Ha, Hb, Hc, Hd. lia.
Qed.

Lemma orelse_some {A} (o1 o2 : option A) (x : A) :
  orelse o1 o2 = Some x -> o1 = Some x \/ o2 = Some x.
Proof. destruct o1; simpl; auto. Qed.

Lemma then_dash_some (o : option (Z * string)) (m : Z) (r : string) :
  then_dash o = Some (m, r) -> exists r0, o = Some (m, r0).
Proof.
  destruct o as [[m' [|c r']]|]; simpl; try discriminate.
  destruct (Ascii.eqb c "-"); [|discriminate]. intros H. injection H as -> _. eauto.
Qed.

Lemma re_two_val (x lo hi : ascii) (s r : string) (m : Z) :
  re_two x lo hi s = Some (m, r) ->
  exists b, in_range b lo hi = true /\ m = (10 * digit_val x + digit_val b)%Z.
Proof.
  unfold re_two. destruct s as [|a [|b s]]; try discriminate.
  destruct (Ascii.eqb a x) eqn:Ea, (in_range b lo hi) eqn:Eb; try discriminate.
  apply Ascii.eqb_eq in Ea. subst a. intros H. injection H as <- _. eauto.
Qed.

Lemma re_one_val (lo hi : ascii) (s r : string) (m : Z) :
  re_one lo hi s = Some (m, r) -> exists a, in_range a lo hi = true /\ m = digit_val a.
Proof.
  unfold re_one. destruct s as [|a s]; try discriminate.
  destruct (in_range a lo hi) eqn:Ea; try discriminate. intros H. injection H as <- _. eauto.
Qed.

Lemma re_m_dash_range (s r : string) (m : Z) : re_m_dash s = Some (m, r) -> (1 <= m <= 12)%Z.
Proof.
  unfold re_m_dash. intros H.
  destruct (orelse_some _ _ _ H) as [H1|H1]; [|destruct (orelse_some _ _ _ H1) as [H2|H2]];
    [apply then_dash_some in H1 as [r0 H1]; apply re_two_val in H1 as (b & Hb & ->)
    |apply then_dash_some in H2 as [r0 H2]; apply re_two_val in H2 as (b & Hb & ->)
    |apply then_dash_some in H2 as [r0 H2]; apply re_one_val in H2 as (b & Hb & ->)].
  - pose proof (digit_val_range b "0" "2" Hb ltac:(vm_compute; lia)) as R.
    change (digit_val "1") with 1%Z. change (Z.of_nat (nat_of_ascii "0")) with 48%Z in R.
    change (Z.of_nat (nat_of_ascii "2")) with 50%Z in R. lia.
  - pose proof (in_range_19 b Hb). change (digit_val "0") with 0%Z. lia.
  - pose proof (in_range_19 b Hb). lia.
Qed.

Lemma strptime_valid (s : string) (d : date) : strptime s = Some d -> valid_date d.
Proof.
  unfold strptime. destruct (re_Y s) as [[y [|c r1]]|] eqn:EY; try discriminate.
  destruct (Ascii.eqb c "-"); [|discriminate].
  destruct (re_m_dash r1) as [[m r2]|] eqn:EM; [|discriminate].
  destruct (re_d r2) as [[dd [|c' r3]]|]; try discriminate.
  destruct ((1 <=? y)%Z && (1 <=? dd)%Z && (dd <=? days_in_month y m)%Z) eqn:Ec; [|discriminate].
  intros H. injection H as <-.
  apply andb_prop in Ec as [Ec E3]. apply andb_prop in Ec as [E1 E2].
  apply Z.leb_le in E1, E2, E3.
  pose proof (re_Y_range _ _ _ EY). pose proof (re_m_dash_range _ _ _ EM).
  unfold valid_date. simpl. lia.
Qed.

Lemma days_in_month_le (y m : Z) : (days_in_month y m <= 31)%Z.
Proof.
  unfold days_in_month. destruct (Z.eqb m 2); [destruct (is_leap y)|destruct (_ || _)]; lia.
Qed.

(** [date.isoformat()] and [strptime(_, "%Y-%m-%d")] agree: every date
    [strptime] returns is a valid [date], and the ISO rendering of a valid
    date parses back to it. *)
Theorem isoformat_strptime_roundtrip :
  (forall (s : string) (d : date), strptime s = Some d -> valid_date d) /\
  (forall d : date, valid_date d -> strptime (isoformat d) = Some d).
Proof.
  split; [exact strptime_valid|].
  intros [y m dd] (Hy & Hm & Hd). simpl in Hy, Hm, Hd.
  pose proof (days_in_month_le y m).
  unfold strptime, isoformat. simpl. rewrite re_Y_fmt by exact Hy.
  rewrite append_cons, append_nil, Ascii.eqb_refl.
  rewrite re_m_dash_fmt by exact Hm. rewrite re_d_fmt by lia.
  replace ((1 <=? y)%Z && (1 <=? dd)%Z && (dd <=? days_in_month y m)%Z) with true;
    [reflexivity|].
  symmetry. apply andb_true_intro. split; [apply andb_true_intro; split|]; apply Z.leb_le; lia.
Qed.

(** ** X: date errors at the routes *)

Lemma create_date_bad (s : string) :
  s <> "" -> strptime s = None -> create_date (Some s) = inl ValueError.
Proof.
  intros Hs Hp. unfold create_date. destruct (String.eqb s "") eqn:E.
  - apply String.eqb_eq in E. contradiction.
  - rewrite Hp. reflexivity.
Qed.

Lemma convert_date_err (u : option (option string)) (e : exn) :
  convert_date u = inl e -> e = ValueError.
Proof.
  unfold convert_date. destruct u as [[s|]|]; try discriminate.
  destruct (String.eqb s ""); [discriminate|].
  destruct (strptime s); [discriminate|]. intros H. injection H as <-. reflexivity.
Qed.

Lemma flush_date_err (v : option date_attr) (e : exn) : flush_date v = inl e -> e = TypeError.
Proof.
  destruct v as [[|d|s]|]; simpl; try discriminate. intros H. injection H as <-. reflexivity.
Qed.

(** A string [strptime] rejects either fails the conversion or, when it is
    the empty string, is kept as a [str] that the flush refuses. *)
Lemma convert_flush_bad (s : string) (v : option date_attr) :
  strptime s = None -> convert_date (Some (Some s)) = inr v -> flush_date v = inl TypeError.
Proof.
  intros Hp. unfold convert_date. destruct (String.eqb s "").
  - intros H. injection H as <-. reflexivity.
  - rewrite Hp. discriminate.
Qed.

(** Date strings at the account routes: [POST /api/accounts] with a
    non-empty ASCII date string that [strptime] rejects answers 400 with the
    [ValueError], while [PUT /api/accounts/{id}] on an existing account with
    an ASCII date string [strptime] rejects, the empty string included, answers 500
    (the [ValueError] of the conversion or the [TypeError] of the flush
    escapes the route, which has no [try]).  The store is unchanged. *)
Theorem account_route_date_errors :
  (forall (db : store) (data : AccountCreate) (clock_id clock_now : datetime) (s : string),
     In (Some s) [ac_revised_start_date data; ac_planned_start_date data;
                  ac_planned_end_date data] ->
     s <> "" -> ascii_text s = true -> strptime s = None ->
     api_create_account db data clock_id clock_now = (Failure 400 (DStr ValueError), db)) /\
  (forall (db : store) (account_id : string) (u : AccountUpdate) (clock_now : datetime)
          (account : AccountModel) (s : string),
     get_account_by_id db account_id = Some account ->
     In (Some (Some s)) [au_revised_start_date u; au_planned_start_date u;
                         au_planned_end_date u] ->
     ascii_text s = true -> strptime s = None ->
     api_update_account db account_id u clock_now
       = (Failure 500 (DText "Internal Server Error"), db)).
Proof.
  split.
  - intros db data clock_id clock_now s Hin Hs _ Hp.
    pose proof (create_date_bad s Hs Hp) as Hbad.
    unfold api_create_account, create_account.
    destruct (create_date (ac_revised_start_date data)) as [e|x1] eqn:E1; simpl;
      [rewrite (create_date_err _ _ E1); reflexivity|].
    destruct (create_date (ac_planned_start_date data)) as [e|x2] eqn:E2; simpl;
      [rewrite (create_date_err _ _ E2); reflexivity|].
    destruct (create_date (ac_planned_end_date data)) as [e|x3] eqn:E3; simpl;
      [rewrite (create_date_err _ _ E3); reflexivity|].
    exfalso. simpl in Hin.
    destruct Hin as [H|[H|[H|[]]]]; rewrite <- H in *; congruence.
  - intros db account_id u clock_now account s Hget Hin _ Hp.
    unfold api_update_account, update_account. rewrite Hget.
    destruct (convert_date (au_revised_start_date u)) as [e|r1] eqn:C1; simpl;
      [rewrite (convert_date_err _ _ C1); reflexivity|].
    destruct (convert_date (au_planned_start_date u)) as [e|r2] eqn:C2; simpl;
      [rewrite (convert_date_err _ _ C2); reflexivity|].
    destruct (convert_date (au_planned_end_date u)) as [e|r3] eqn:C3; simpl;
      [rewrite (convert_date_err _ _ C3); reflexivity|].
    destruct (flush_date r1) as [e|f1] eqn:F1; simpl;
      [rewrite (flush_date_err _ _ F1); reflexivity|].
    destruct (flush_date r2) as [e|f2] eqn:F2; simpl;
      [rewrite (flush_date_err _ _ F2); reflexivity|].
    destruct (flush_date r3) as [e|f3] eqn:F3; simpl;
      [rewrite (flush_date_err _ _ F3); reflexivity|].
    exfalso. simpl in Hin.
    destruct Hin as [H|[H|[H|[]]]]; rewrite H in *;
      [rewrite (convert_flush_bad s r1 Hp C1) in F1
      |rewrite (convert_flush_bad s r2 Hp C2) in F2
      |rewrite (convert_flush_bad s r3 Hp C3) in F3]; discriminate.
Qed.

(** Date strings at the demand routes, which catch every error: [POST
    /api/demands] for an existing account with a non-empty ASCII date
    string [strptime] rejects answers 400 with the [ValueError]; [PUT
    /api/demands/{id}] on an existing demand whose [account_id], if given,
    names an existing account, with an ASCII date string [strptime] rejects (the
    empty string included), answers 400 with the [ValueError] or the
    [TypeError].  The store is unchanged. *)
Theorem demand_route_date_errors :
  (forall (db : store) (data : DemandCreate) (clock_id clock_now : datetime)
          (account : AccountModel) (s : string),
     get_account_by_id db (dc_account_id data) = Some account ->
     In (Some s) [dc_original_start_date data; dc_allocation_end_date data] ->
     s <> "" -> ascii_text s = true -> strptime s = None ->
     api_create_demand db data clock_id clock_now = (Failure 400 (DStr ValueError), db)) /\
  (forall (db : store) (demand_id : string) (u : DemandUpdate) (clock_now : datetime)
          (demand : DemandModel) (s : string),
     get_demand_by_id db demand_id = Some demand ->
     (forall v, du_account_id u = Some v -> account_exists db v = true) ->
     In (Some (Some s)) [du_original_start_date u; du_allocation_end_date u] ->
     ascii_text s = true -> strptime s = None ->
     exists e, (e = ValueError \/ e = TypeError) /\
       api_update_demand db demand_id u clock_now = (Failure 400 (DStr e), db)).
Proof.
  split.
  - intros db data clock_id clock_now account s Hacc Hin Hs _ Hp.
    pose proof (create_date_bad s Hs Hp) as Hbad.
    unfold api_create_demand, create_demand. rewrite Hacc.
    destruct (create_date (dc_original_start_date data)) as [e|x1] eqn:E1; simpl;
      [rewrite (create_date_err _ _ E1); reflexivity|].
    destruct (create_date (dc_allocation_end_date data)) as [e|x2] eqn:E2; simpl;
      [rewrite (create_date_err _ _ E2); reflexivity|].
    exfalso. simpl in Hin.
    destruct Hin as [H|[H|[]]]; rewrite <- H in *; congruence.
  - intros db demand_id u clock_now demand s Hget Hchk Hin _ Hp.
    unfold api_update_demand, update_demand. rewrite Hget.
    replace (match du_account_id u with
             | Some v => if account_exists db v then inr tt
                         else inl (HTTPException 404 "Referenced account not found")
             | None => inr tt end) with (@inr exn unit tt).
    2:{ destruct (du_account_id u) as [v|]; [|reflexivity]. rewrite (Hchk v eq_refl).
        reflexivity. }
    simpl.
    destruct (convert_date (du_original_start_date u)) as [e|r1] eqn:C1; simpl;
      [exists ValueError; split; [left; reflexivity|rewrite (convert_date_err _ _ C1); reflexivity]|].
    destruct (convert_date (du_allocation_end_date u)) as [e|r2] eqn:C2; simpl;
      [exists ValueError; split; [left; reflexivity|rewrite (convert_date_err _ _ C2); reflexivity]|].
    destruct (flush_date r1) as [e|f1] eqn:F1; simpl;
      [exists TypeError; split; [right; reflexivity|rewrite (flush_date_err _ _ F1); reflexivity]|].
    destruct (flush_date r2) as [e|f2] eqn:F2; simpl;
      [exists TypeError; split; [right; reflexivity|rewrite (flush_date_err _ _ F2); reflexivity]|].
    exfalso. simpl in Hin.
    destruct Hin as [H|[H|[]]]; rewrite H in *;
      [rewrite (convert_flush_bad s r1 Hp C1) in F1
      |rewrite (convert_flush_bad s r2 Hp C2) in F2]; discriminate.
Qed.

(** ** X: the clone route *)

(** [POST /api/demands/{id}/clone]: a [count] outside [1, 10] is refused
    with 422, an absent [count] is [1]; within the bounds, a missing source
    demand gives 404 "Demand not found", a generated id already in use
    gives 400 with the [IntegrityError], and otherwise the answer is the
    message ["<count> demand(s) cloned successfully"] with the [count]
    clones, appended to the demands table.  Every refusal leaves the store
    as it was. *)
Theorem clone_route_outcomes (db : store) (demand_id : string) (clock_now : datetime)
    (clock : nat -> datetime) :
  (forall c : Z, (c < 1 \/ 10 < c)%Z ->
     api_clone_demand db demand_id (Some c) clock_now clock = (Failure 422 DValidation, db)) /\
  api_clone_demand db demand_id None clock_now clock
    = api_clone_demand db demand_id (Some 1%Z) clock_now clock /\
  (forall c : Z, (1 <= c <= 10)%Z -> get_demand_by_id db demand_id = None ->
     api_clone_demand db demand_id (Some c) clock_now clock
       = (Failure 404 (DText "Demand not found"), db)) /\
  (forall (c : Z) (source : DemandModel), (1 <= c <= 10)%Z ->
     get_demand_by_id db demand_id = Some source ->
     (exists (i : nat) (e : DemandModel), (i < Z.to_nat c)%nat /\ In e (demands db) /\
        dem_id e = clone_id (clock i) i) ->
     api_clone_demand db demand_id (Some c) clock_now clock
       = (Failure 400 (DStr IntegrityError), db)) /\
  (forall (c : Z) (source : DemandModel), (1 <= c <= 10)%Z ->
     get_demand_by_id db demand_id = Some source ->
     (forall (i : nat) (e : DemandModel), (i < Z.to_nat c)%nat -> In e (demands db) ->
        dem_id e <> clone_id (clock i) i) ->
     exists clones,
       api_clone_demand db demand_id (Some c) clock_now clock
         = (Success (Some (pretty c +:+ " demand(s) cloned successfully")) clones,
            mkStore (accounts db) (demands db ++ clones)) /\
       length clones = Z.to_nat c).
Proof.
  assert (Hin : forall c : Z, (1 <= c <= 10)%Z -> ((1 <=? c)%Z && (c <=? 10)%Z) = true).
  { intros c Hc. apply andb_true_intro. split; apply Z.leb_le; lia. }
  split; [|split; [reflexivity|split; [|split]]].
  - intros c Hc. unfold api_clone_demand.
    replace ((1 <=? c)%Z && (c <=? 10)%Z) with false; [reflexivity|].
    symmetry. apply Bool.not_true_iff_false. intros Ht.
    apply andb_prop in Ht as [H1 H2]. apply Z.leb_le in H1, H2. lia.
  - intros c Hc Hget. unfold api_clone_demand. rewrite (Hin c Hc).
    unfold clone_demand. rewrite Hget. reflexivity.
  - intros c source Hc Hget (i & e & Hi & He & Heq).
    unfold api_clone_demand. rewrite (Hin c Hc). unfold clone_demand. rewrite Hget.
    rewrite insert_demands_clash; [reflexivity|].
    exists (make_clone source (clone_id (clock i) i) get_current_user (dt_date clock_now)), e.
    split; [|split; [exact He|exact Heq]].
    apply (in_map (fun i => make_clone source (clone_id (clock i) i) get_current_user
                              (dt_date clock_now))).
    apply in_seq. lia.
  - intros c source Hc Hget Hfresh.
    set (news := map (fun i => make_clone source (clone_id (clock i) i) get_current_user
                                 (dt_date clock_now)) (seq 0 (Z.to_nat c))).
    assert (Hnd : NoDup (map dem_id news)).
    { unfold news. rewrite map_map. apply NoDup_map_inj; [|apply NoDup_seq].
      intros x y Hxy. exact (clone_id_inj _ _ _ _ Hxy). }
    destruct (insert_demands_fresh news (demands db)) as (ins & ds' & Hins); [exact Hnd| |].
    { intros c0 e Hc0 He. unfold news in Hc0. apply in_map_iff in Hc0 as (i & <- & Hi).
      apply in_seq in Hi. simpl. apply Hfresh; [lia|exact He]. }
    destruct (insert_demands_ok _ _ _ _ Hins) as [-> HF].
    exists ins. split.
    + unfold api_clone_demand. rewrite (Hin c Hc). unfold clone_demand. rewrite Hget.
      fold news. rewrite Hins. reflexivity.
    + rewrite <- (Forall2_length _ _ _ HF). unfold news. rewrite length_map, length_seq.
      reflexivity.
Qed.

(** ** X: the create-demand route *)

(** [POST /api/demands] for an existing account with date strings that
    convert: when no demand has the id ["DEM-" ++ timestamp], the answer is
    "Demand added successfully" with the new row, appended to the demands
    table with that id, a [sno] above every existing one, the account id,
    status and converted dates of the input, and the actor and current date
    in the four audit fields; when a demand already has that id (a demand
    created within the same second), the UNIQUE index refuses the row and
    the route answers 400 with the [IntegrityError], the store unchanged. *)
Theorem create_demand_route (db : store) (data : DemandCreate) (clock_id clock_now : datetime)
    (account : AccountModel) (osd aed : option date) :
  get_account_by_id db (dc_account_id data) = Some account ->
  create_date (dc_original_start_date data) = inr osd ->
  create_date (dc_allocation_end_date data) = inr aed ->
  ((forall e, In e (demands db) -> dem_id e <> "DEM-" +:+ strftime_ts clock_id) ->
   exists demand,
     api_create_demand db data clock_id clock_now
       = (Success (Some "Demand added successfully") demand,
          mkStore (accounts db) (demands db ++ [demand])) /\
     dem_id demand = "DEM-" +:+ strftime_ts clock_id /\
     (forall e, In e (demands db) -> (sno e < sno demand)%Z) /\
     dem_account_id demand = Some (dc_account_id data) /\
     status demand = Some (dc_status data) /\
     original_start_date demand = osd /\ allocation_end_date demand = aed /\
     dem_added_by demand = get_current_user /\ dem_last_updated_by demand = get_current_user /\
     dem_added_on demand = dt_date clock_now /\ dem_updated_on demand = dt_date clock_now) /\
  ((exists e, In e (demands db) /\ dem_id e = "DEM-" +:+ strftime_ts clock_id) ->
   api_create_demand db data clock_id clock_now = (Failure 400 (DStr IntegrityError), db)).
Proof.
  intros Hacc Ho Ha.
  unfold api_create_demand, create_demand. rewrite Hacc, Ho. simpl. rewrite Ha. simpl.
  unfold insert_demand. simpl. split.
  - intros Hfresh.
    replace (existsb _ (demands db)) with false.
    2:{ symmetry. apply Bool.not_true_iff_false. intros Ht.
        apply existsb_exists in Ht as (e & He & Heq). apply String.eqb_eq in Heq.
        exact (Hfresh e He Heq). }
    eexists. split; [reflexivity|]. simpl.
    split; [reflexivity|]. split; [intros e He; apply next_sno_gt, He|].
    repeat split.
  - intros (e & He & Heq).
    replace (existsb _ (demands db)) with true; [reflexivity|].
    symmetry. apply existsb_exists. exists e. split; [exact He|].
    simpl. rewrite Heq. apply String.eqb_refl.
Qed.

Lemma create_demand_route_witness :
  get_account_by_id sample_db1 (dc_account_id sample_demand_create) <> None /\
  exists demand,
    api_create_demand sample_db1 sample_demand_create t0 t0
      = (Success (Some "Demand added successfully") demand,
         mkStore (accounts sample_db1) (demands sample_db1 ++ [demand])).
Proof.
  split; [vm_compute; discriminate|].
  destruct (get_account_by_id sample_db1 (dc_account_id sample_demand_create)) as [account|]
    eqn:Hacc; [|vm_compute in Hacc; discriminate].
  destruct (proj1 (create_demand_route sample_db1 sample_demand_create t0 t0 account None None
                     Hacc eq_refl eq_refl))
    as (demand & H & _).
  - intros e He. vm_compute in He. destruct He.
  - exists demand. exact H.
Defined.

(** ** X: the delete routes on a missing id *)

(** [DELETE /api/accounts/{id}] answers 400 "Account not found or cannot
    be deleted due to linked demands" both for an id no account has and for
    an account some demand references, while [DELETE /api/demands/{id}]
    answers 404 "Demand not found" for an id no demand has; the store is
    unchanged in each case. *)
Theorem delete_routes_refusals (db : store) :
  (forall account_id : string,
     get_account_by_id db account_id = None \/
     (exists d, In d (demands db) /\ dem_account_id d = Some account_id) ->
     api_delete_account db account_id
       = (Failure 400 (DText "Account not found or cannot be deleted due to linked demands"),
          db)) /\
  (forall demand_id : string, get_demand_by_id db demand_id = None ->
     api_delete_demand db demand_id = (Failure 404 (DText "Demand not found"), db)).
Proof.
  split.
  - intros account_id H. unfold api_delete_account, delete_account.
    destruct (get_account_by_id db account_id) as [account|] eqn:Hget; [|reflexivity].
    destruct H as [H|(d & Hd & Hacc)]; [discriminate|].
    assert (Hin : In d (List.filter (fun d => col_eq (dem_account_id d) account_id)
                                    (demands db))).
    { apply filter_In. split; [exact Hd|]. rewrite Hacc. simpl. apply String.eqb_refl. }
    destruct (List.filter (fun d => col_eq (dem_account_id d) account_id) (demands db));
      [destruct Hin|reflexivity].
  - intros demand_id H. unfold api_delete_demand, delete_demand. rewrite H. reflexivity.
Qed.
